(** * Voice ordering console: the realtime session orchestrator

    A shallow embedding of [ConsolePage] (src/unnamed/part_001): the
    event-log aggregation, the connect / disconnect lifecycle, push-to-talk,
    the turn-detection switch, the interruption handler and the
    [initiate_order] tool.

    JavaScript numbers that carry money ([price], [quantity], [totalAmount])
    and coordinates are IEEE binary64 values and are embedded as primitive
    floats; repeat counters and sample offsets are integers well inside the
    exactly representable range and are embedded as [Z]. *)

From Stdlib Require Import ZArith List Lia.
From Stdlib Require Import Floats.PrimFloat.
From stdpp Require Import base option list gmap strings pretty.
Import ListNotations.

Local Open Scope Z_scope.
#[local] Set Warnings "-inexact-float".

(** ** Event log (the [realtimeEvents] state) *)

Module EventLog.

Inductive Source := client | server.

(** [event: { [key: string]: any }]: the payload is opaque except for its
    [type] tag, which every channel event carries. *)
Record Payload := { type : string; detail : string }.

Record RealtimeEvent := {
  time : string;
  source : Source;
  count : option Z;
  event : Payload;
}.

(** [lastEvent.count = v] *)
Definition set_count (v : Z) (e : RealtimeEvent) : RealtimeEvent :=
  {| time := time e; source := source e; count := Some v; event := event e |}.

(** [x || 0] on an optional number: [undefined] and [0] are falsy. *)
Definition or_zero (c : option Z) : Z :=
  match c with
  | Some v => if Z.eqb v 0 then 0 else v
  | None => 0
  end.

(** The state updater passed to [setRealtimeEvents] by the
    ['realtime.event'] handler. [last] is [realtimeEvents[length - 1]]
    ([None] when the log is empty, where [lastEvent?.event.type] is
    [undefined] and differs from every tag); [removelast] is
    [slice(0, -1)]. *)
Definition aggregate (realtimeEvent : RealtimeEvent)
    (realtimeEvents : list RealtimeEvent) : list RealtimeEvent :=
  match last realtimeEvents with
  | Some lastEvent =>
      if decide (type (event lastEvent) = type (event realtimeEvent))
      then removelast realtimeEvents
             ++ [set_count (or_zero (count lastEvent) + 1) lastEvent]
      else realtimeEvents ++ [realtimeEvent]
  | None => realtimeEvents ++ [realtimeEvent]
  end.

(** Delivering a sequence of events, oldest first. *)
Definition aggregate_all (evs : list RealtimeEvent)
    (log : list RealtimeEvent) : list RealtimeEvent :=
  fold_left (fun log e => aggregate e log) evs log.

Definition tag (e : RealtimeEvent) : string := type (event e).

(** What an entry shows: its type tag and its repeat counter. *)
Definition summary (log : list RealtimeEvent) : list (string * option Z) :=
  map (fun e => (tag e, count e)) log.

(** An event as the channel emits it: [{ time, source, event }], no
    [count] property. *)
Definition emitted (t : string) (s : Source) (ty : string) (d : string)
    : RealtimeEvent :=
  {| time := t; source := s; count := None;
     event := {| type := ty; detail := d |} |}.

(** No two neighbouring entries carry the same type tag. *)
Definition adjacent_distinct (log : list RealtimeEvent) : Prop :=
  forall (i : nat) (a b : RealtimeEvent),
    log !! i = Some a -> log !! S i = Some b -> tag a <> tag b.

(** The same property, as a recursive check on the list of tags. *)
Fixpoint alternating (tags : list string) : Prop :=
  match tags with
  | a :: (b :: _) as rest => a <> b /\ alternating rest
  | _ => True
  end.

End EventLog.

(** ** Data carried by the page *)

Module Coordinates.
Record t := { lat : float; lng : float }.
End Coordinates.

Module Item.
Inductive Status := in_progress | completed.
Record t := { id : string; status : Status }.
End Item.

Module OrderedItem.
Record t := { name : string; quantity : float; price : float }.
End OrderedItem.

Module Order.
Record t := {
  id : string;
  restaurant_id : option string;
  items_ordered : list OrderedItem.t;
  totalAmount : float;
}.
End Order.

Module OrderResult.
Record t := {
  success : bool;
  message : string;
  orderId : string;
  totalAmount : float;
}.
End OrderResult.

Module Restaurant.
Record t := {
  name : string;
  address : string;
  discovery_mode_is_on : bool;
  menu_string : string;
  unique_azz_id : string;
}.
End Restaurant.

Module Tool.
Record t := { name : string; description : string; required : list string }.
End Tool.

(** [turn_detection]: [null] is [None], [{ type: 'server_vad' }] is
    [Some server_vad]. *)
Inductive TurnDetection := server_vad.

(** ** Errors *)

Inductive Error :=
| DeviceUnavailable
| DeviceBusy
| ConnectionFailed
| NetworkError
| HttpError (status : Z)
| MalformedBody
| SessionEnded.

Inductive Outcome (A : Type) :=
| Returned (a : A)
| Thrown (e : Error).
Arguments Returned {A} a.
Arguments Thrown {A} e.

(** ** The collaborators

    [WavRecorder] and [WavStreamPlayer] (lib/wavtools) and [RealtimeClient]
    are used by the page but defined elsewhere; their state is kept as far as
    the page reads it or the design document describes it. *)

Inductive RecorderStatus := ended | paused | recording.

(** What [interrupt()] reports. *)
Record TrackSampleOffset := { trackId : option string; offset : Z }.

(** The output device, and the track being rendered with the number of its
    samples rendered so far. *)
Record Player := { output_acquired : bool; playing : option (string * Z) }.

Record Client := {
  connected : bool;
  turn_detection : option TurnDetection;
  tools : gmap string Tool.t;
  handlers : list string;
  conversation : list Item.t;
}.

(** ** Component state ([useState] and [useRef] cells) *)

Record Page := {
  startTime : string;
  isConnected : bool;
  realtimeEvents : list EventLog.RealtimeEvent;
  items : list Item.t;
  memoryKv : gmap string string;
  coords : option Coordinates.t;
  marker : option Coordinates.t;
  isRecording : bool;
  canPushToTalk : bool;
  orderDetails : option Order.t;
  instructions : string;
  instructionsLoaded : bool;
  restaurantName : string;
  isLoading : bool;
  discoveryModeIsOn : bool;
}.

Record World := {
  page : Page;
  wavRecorder : RecorderStatus;
  wavStreamPlayer : Player;
  realtimeClient : Client;
  localStorage : gmap string string;
  location_href : option string;
}.

(** What the outside world answers: the clock, the devices, the network,
    the random source. *)
Inductive FetchOutcome :=
| rejected
| responded (status : Z) (parses : bool).

Inductive RestaurantLookup :=
| lookup_failed
| lookup_unsuccessful
| lookup_found (restaurant : Restaurant.t).

Record Env := {
  now : string;
  captureDevice : bool;
  playbackDevice : bool;
  channelReachable : bool;
  randomId : string;
  domainUrl : string;
  uniqueAzzId : string;
  orderPost : FetchOutcome;
  restaurantGet : RestaurantLookup;
}.

(** Calls made on the collaborators and on the browser, in program order. *)
Inductive Call :=
| RecorderBegin
| RecorderRecord
| RecorderPause
| RecorderEnd
| PlayerConnect
| PlayerInterrupt
| ClientConnect
| ClientDisconnect
| ClientReset
| ClientSendUserMessageContent (text : string)
| ClientAppendInputAudio (chunk : list Z)
| ClientCancelResponse (trackId : string) (offset : Z)
| ClientCreateResponse
| ClientUpdateTurnDetection (td : option TurnDetection)
| ClientUpdateInstructions (text : string)
| ClientUpdateTranscription (model : string)
| ClientAddTool (name : string)
| ClientOn (eventName : string)
| FetchGet (url : string)
| FetchPost (url : string) (body : Order.t)
| ConsoleLog (what : string)
| ConsoleError (what : string).

(** ** Sequencing: state, exceptions and the call trace

    An [async] function awaited step by step is a function from the world
    to an outcome, the world it leaves behind and the calls it made. A
    thrown error skips the rest of the function; state changes and calls
    made before it stay. *)

Definition M (A : Type) : Type := World -> Outcome A * World * list Call.

Definition ret {A} (a : A) : M A := fun w => (Returned a, w, []).

Definition bind {A B} (m : M A) (k : A -> M B) : M B := fun w =>
  match m w with
  | (Returned a, w1, t1) =>
      match k a w1 with (r, w2, t2) => (r, w2, t1 ++ t2) end
  | (Thrown e, w1, t1) => (Thrown e, w1, t1)
  end.

Definition throw {A} (e : Error) : M A := fun w => (Thrown e, w, []).

(** [try { m } catch (error) { h error }] *)
Definition try_catch {A} (m : M A) (h : Error -> M A) : M A := fun w =>
  match m w with
  | (Returned a, w1, t1) => (Returned a, w1, t1)
  | (Thrown e, w1, t1) =>
      match h e w1 with (r, w2, t2) => (r, w2, t1 ++ t2) end
  end.

Definition call (c : Call) : M unit := fun w => (Returned tt, w, [c]).
Definition gets {A} (f : World -> A) : M A := fun w => (Returned (f w), w, []).
Definition modify (f : World -> World) : M unit :=
  fun w => (Returned tt, f w, []).

Declare Scope js_scope.
Delimit Scope js_scope with js.
Notation "x <- m ;; k" := (bind m (fun x => k))
  (at level 100, m at next level, right associativity) : js_scope.
Notation "m ;; k" := (bind m (fun _ => k))
  (at level 100, right associativity) : js_scope.
Local Open Scope js_scope.

Definition outcome {A} (x : Outcome A * World * list Call) : Outcome A :=
  x.1.1.
Definition world_after {A} (x : Outcome A * World * list Call) : World :=
  x.1.2.
Definition trace {A} (x : Outcome A * World * list Call) : list Call := x.2.

(** ** State setters

    One setter for each [useState] cell, as React hands them to the page. *)

Definition setStartTime (v : string) (p : Page) : Page :=
  {| startTime := v; isConnected := isConnected p;
     realtimeEvents := realtimeEvents p; items := items p;
     memoryKv := memoryKv p; coords := coords p; marker := marker p;
     isRecording := isRecording p; canPushToTalk := canPushToTalk p;
     orderDetails := orderDetails p; instructions := instructions p;
     instructionsLoaded := instructionsLoaded p;
     restaurantName := restaurantName p; isLoading := isLoading p;
     discoveryModeIsOn := discoveryModeIsOn p |}.

Definition setIsConnected (v : bool) (p : Page) : Page :=
  {| startTime := startTime p; isConnected := v;
     realtimeEvents := realtimeEvents p; items := items p;
     memoryKv := memoryKv p; coords := coords p; marker := marker p;
     isRecording := isRecording p; canPushToTalk := canPushToTalk p;
     orderDetails := orderDetails p; instructions := instructions p;
     instructionsLoaded := instructionsLoaded p;
     restaurantName := restaurantName p; isLoading := isLoading p;
     discoveryModeIsOn := discoveryModeIsOn p |}.

Definition setRealtimeEvents (v : list EventLog.RealtimeEvent) (p : Page) : Page :=
  {| startTime := startTime p; isConnected := isConnected p;
     realtimeEvents := v; items := items p; memoryKv := memoryKv p;
     coords := coords p; marker := marker p; isRecording := isRecording p;
     canPushToTalk := canPushToTalk p; orderDetails := orderDetails p;
     instructions := instructions p;
     instructionsLoaded := instructionsLoaded p;
     restaurantName := restaurantName p; isLoading := isLoading p;
     discoveryModeIsOn := discoveryModeIsOn p |}.

Definition setItems (v : list Item.t) (p : Page) : Page :=
  {| startTime := startTime p; isConnected := isConnected p;
     realtimeEvents := realtimeEvents p; items := v;
     memoryKv := memoryKv p; coords := coords p; marker := marker p;
     isRecording := isRecording p; canPushToTalk := canPushToTalk p;
     orderDetails := orderDetails p; instructions := instructions p;
     instructionsLoaded := instructionsLoaded p;
     restaurantName := restaurantName p; isLoading := isLoading p;
     discoveryModeIsOn := discoveryModeIsOn p |}.

Definition setMemoryKv (v : gmap string string) (p : Page) : Page :=
  {| startTime := startTime p; isConnected := isConnected p;
     realtimeEvents := realtimeEvents p; items := items p; memoryKv := v;
     coords := coords p; marker := marker p; isRecording := isRecording p;
     canPushToTalk := canPushToTalk p; orderDetails := orderDetails p;
     instructions := instructions p;
     instructionsLoaded := instructionsLoaded p;
     restaurantName := restaurantName p; isLoading := isLoading p;
     discoveryModeIsOn := discoveryModeIsOn p |}.

Definition setCoords (v : option Coordinates.t) (p : Page) : Page :=
  {| startTime := startTime p; isConnected := isConnected p;
     realtimeEvents := realtimeEvents p; items := items p;
     memoryKv := memoryKv p; coords := v; marker := marker p;
     isRecording := isRecording p; canPushToTalk := canPushToTalk p;
     orderDetails := orderDetails p; instructions := instructions p;
     instructionsLoaded := instructionsLoaded p;
     restaurantName := restaurantName p; isLoading := isLoading p;
     discoveryModeIsOn := discoveryModeIsOn p |}.

Definition setMarker (v : option Coordinates.t) (p : Page) : Page :=
  {| startTime := startTime p; isConnected := isConnected p;
     realtimeEvents := realtimeEvents p; items := items p;
     memoryKv := memoryKv p; coords := coords p; marker := v;
     isRecording := isRecording p; canPushToTalk := canPushToTalk p;
     orderDetails := orderDetails p; instructions := instructions p;
     instructionsLoaded := instructionsLoaded p;
     restaurantName := restaurantName p; isLoading := isLoading p;
     discoveryModeIsOn := discoveryModeIsOn p |}.

Definition setIsRecording (v : bool) (p : Page) : Page :=
  {| startTime := startTime p; isConnected := isConnected p;
     realtimeEvents := realtimeEvents p; items := items p;
     memoryKv := memoryKv p; coords := coords p; marker := marker p;
     isRecording := v; canPushToTalk := canPushToTalk p;
     orderDetails := orderDetails p; instructions := instructions p;
     instructionsLoaded := instructionsLoaded p;
     restaurantName := restaurantName p; isLoading := isLoading p;
     discoveryModeIsOn := discoveryModeIsOn p |}.

Definition setCanPushToTalk (v : bool) (p : Page) : Page :=
  {| startTime := startTime p; isConnected := isConnected p;
     realtimeEvents := realtimeEvents p; items := items p;
     memoryKv := memoryKv p; coords := coords p; marker := marker p;
     isRecording := isRecording p; canPushToTalk := v;
     orderDetails := orderDetails p; instructions := instructions p;
     instructionsLoaded := instructionsLoaded p;
     restaurantName := restaurantName p; isLoading := isLoading p;
     discoveryModeIsOn := discoveryModeIsOn p |}.

Definition setOrderDetails (v : option Order.t) (p : Page) : Page :=
  {| startTime := startTime p; isConnected := isConnected p;
     realtimeEvents := realtimeEvents p; items := items p;
     memoryKv := memoryKv p; coords := coords p; marker := marker p;
     isRecording := isRecording p; canPushToTalk := canPushToTalk p;
     orderDetails := v; instructions := instructions p;
     instructionsLoaded := instructionsLoaded p;
     restaurantName := restaurantName p; isLoading := isLoading p;
     discoveryModeIsOn := discoveryModeIsOn p |}.

Definition setInstructions (v : string) (p : Page) : Page :=
  {| startTime := startTime p; isConnected := isConnected p;
     realtimeEvents := realtimeEvents p; items := items p;
     memoryKv := memoryKv p; coords := coords p; marker := marker p;
     isRecording := isRecording p; canPushToTalk := canPushToTalk p;
     orderDetails := orderDetails p; instructions := v;
     instructionsLoaded := instructionsLoaded p;
     restaurantName := restaurantName p; isLoading := isLoading p;
     discoveryModeIsOn := discoveryModeIsOn p |}.

Definition setInstructionsLoaded (v : bool) (p : Page) : Page :=
  {| startTime := startTime p; isConnected := isConnected p;
     realtimeEvents := realtimeEvents p; items := items p;
     memoryKv := memoryKv p; coords := coords p; marker := marker p;
     isRecording := isRecording p; canPushToTalk := canPushToTalk p;
     orderDetails := orderDetails p; instructions := instructions p;
     instructionsLoaded := v; restaurantName := restaurantName p;
     isLoading := isLoading p; discoveryModeIsOn := discoveryModeIsOn p |}.

Definition setRestaurantName (v : string) (p : Page) : Page :=
  {| startTime := startTime p; isConnected := isConnected p;
     realtimeEvents := realtimeEvents p; items := items p;
     memoryKv := memoryKv p; coords := coords p; marker := marker p;
     isRecording := isRecording p; canPushToTalk := canPushToTalk p;
     orderDetails := orderDetails p; instructions := instructions p;
     instructionsLoaded := instructionsLoaded p; restaurantName := v;
     isLoading := isLoading p; discoveryModeIsOn := discoveryModeIsOn p |}.

Definition setIsLoading (v : bool) (p : Page) : Page :=
  {| startTime := startTime p; isConnected := isConnected p;
     realtimeEvents := realtimeEvents p; items := items p;
     memoryKv := memoryKv p; coords := coords p; marker := marker p;
     isRecording := isRecording p; canPushToTalk := canPushToTalk p;
     orderDetails := orderDetails p; instructions := instructions p;
     instructionsLoaded := instructionsLoaded p;
     restaurantName := restaurantName p; isLoading := v;
     discoveryModeIsOn := discoveryModeIsOn p |}.

Definition setDiscoveryModeIsOn (v : bool) (p : Page) : Page :=
  {| startTime := startTime p; isConnected := isConnected p;
     realtimeEvents := realtimeEvents p; items := items p;
     memoryKv := memoryKv p; coords := coords p; marker := marker p;
     isRecording := isRecording p; canPushToTalk := canPushToTalk p;
     orderDetails := orderDetails p; instructions := instructions p;
     instructionsLoaded := instructionsLoaded p;
     restaurantName := restaurantName p; isLoading := isLoading p;
     discoveryModeIsOn := v |}.

(** Updates of one component of the world. *)

Definition with_page (v : Page) (w : World) : World :=
  {| page := v; wavRecorder := wavRecorder w;
     wavStreamPlayer := wavStreamPlayer w;
     realtimeClient := realtimeClient w; localStorage := localStorage w;
     location_href := location_href w |}.

Definition with_wavRecorder (v : RecorderStatus) (w : World) : World :=
  {| page := page w; wavRecorder := v;
     wavStreamPlayer := wavStreamPlayer w;
     realtimeClient := realtimeClient w; localStorage := localStorage w;
     location_href := location_href w |}.

Definition with_wavStreamPlayer (v : Player) (w : World) : World :=
  {| page := page w; wavRecorder := wavRecorder w; wavStreamPlayer := v;
     realtimeClient := realtimeClient w; localStorage := localStorage w;
     location_href := location_href w |}.

Definition with_realtimeClient (v : Client) (w : World) : World :=
  {| page := page w; wavRecorder := wavRecorder w;
     wavStreamPlayer := wavStreamPlayer w; realtimeClient := v;
     localStorage := localStorage w; location_href := location_href w |}.

Definition with_localStorage (v : gmap string string) (w : World) : World :=
  {| page := page w; wavRecorder := wavRecorder w;
     wavStreamPlayer := wavStreamPlayer w;
     realtimeClient := realtimeClient w; localStorage := v;
     location_href := location_href w |}.

Definition with_location_href (v : option string) (w : World) : World :=
  {| page := page w; wavRecorder := wavRecorder w;
     wavStreamPlayer := wavStreamPlayer w;
     realtimeClient := realtimeClient w; localStorage := localStorage w;
     location_href := v |}.

Definition setState (f : Page -> Page) : M unit :=
  modify (fun w => with_page (f (page w)) w).

Definition client_connected (v : bool) (c : Client) : Client :=
  {| connected := v; turn_detection := turn_detection c; tools := tools c;
     handlers := handlers c; conversation := conversation c |}.

Definition client_turn_detection (v : option TurnDetection) (c : Client) : Client :=
  {| connected := connected c; turn_detection := v; tools := tools c;
     handlers := handlers c; conversation := conversation c |}.

Definition client_tools (v : gmap string Tool.t) (c : Client) : Client :=
  {| connected := connected c; turn_detection := turn_detection c;
     tools := v; handlers := handlers c; conversation := conversation c |}.

Definition client_handlers (v : list string) (c : Client) : Client :=
  {| connected := connected c; turn_detection := turn_detection c;
     tools := tools c; handlers := v; conversation := conversation c |}.

Definition client_conversation (v : list Item.t) (c : Client) : Client :=
  {| connected := connected c; turn_detection := turn_detection c;
     tools := tools c; handlers := handlers c; conversation := v |}.

Definition updateClient (f : Client -> Client) : M unit :=
  modify (fun w => with_realtimeClient (f (realtimeClient w)) w).

(** ** Capture pipeline ([WavRecorder]) *)

Module WavRecorder.

(** Modelled from the spec: [WavRecorder.begin] (lib/wavtools) acquires the
    capture device; it fails with [DeviceUnavailable] if there is none and
    fast with [DeviceBusy] when the device is already held. An acquired
    device starts paused. *)
Definition begin (env : Env) : M unit :=
  call RecorderBegin ;;
  s <- gets wavRecorder ;;
  match s with
  | ended =>
      if captureDevice env then modify (with_wavRecorder paused)
      else throw DeviceUnavailable
  | _ => throw DeviceBusy
  end.

(** Modelled from the spec: [WavRecorder.record] starts continuous delivery
    of chunks to the callback on an acquired device; nothing is delivered
    after [end()]. The page always passes the same callback,
    [(data) => client.appendInputAudio(data.mono)]. *)
Definition record : M unit :=
  call RecorderRecord ;;
  s <- gets wavRecorder ;;
  match s with
  | ended => ret tt
  | _ => modify (with_wavRecorder recording)
  end.

(** Modelled from the spec: [WavRecorder.pause] stops delivering chunks; the
    device stays acquired. *)
Definition pause : M unit :=
  call RecorderPause ;;
  s <- gets wavRecorder ;;
  match s with
  | recording => modify (with_wavRecorder paused)
  | _ => ret tt
  end.

(** Modelled from the spec: [WavRecorder.end] releases the device. *)
Definition end_ : M unit :=
  call RecorderEnd ;;
  modify (with_wavRecorder ended).

Definition getStatus : M RecorderStatus := gets wavRecorder.

End WavRecorder.

(** ** Playback pipeline ([WavStreamPlayer]) *)

Module WavStreamPlayer.

(** Modelled from the spec: [WavStreamPlayer.connect] (lib/wavtools)
    acquires the output device. *)
Definition connect (env : Env) : M unit :=
  call PlayerConnect ;;
  if playbackDevice env
  then modify (fun w => with_wavStreamPlayer
         {| output_acquired := true; playing := playing (wavStreamPlayer w) |}
         w)
  else throw DeviceUnavailable.

(** Modelled from the spec: [WavStreamPlayer.interrupt] stops the track being
    played at once and reports its id with the number of samples rendered;
    on an empty pipeline it reports no track id. *)
Definition interrupt : M (option TrackSampleOffset) :=
  call PlayerInterrupt ;;
  p <- gets wavStreamPlayer ;;
  modify (with_wavStreamPlayer
            {| output_acquired := output_acquired p; playing := None |}) ;;
  ret (Some match playing p with
            | Some (t, n) => {| trackId := Some t; offset := n |}
            | None => {| trackId := None; offset := 0 |}
            end).

End WavStreamPlayer.

(** ** Session channel ([RealtimeClient]) *)

Module RealtimeClient.

Definition fresh : Client :=
  {| connected := false; turn_detection := None; tools := ∅;
     handlers := []; conversation := [] |}.

(** Modelled from the spec: [RealtimeClient.connect] opens the channel and
    fails with [ConnectionFailed] when the remote agent cannot be reached. *)
Definition connect (env : Env) : M unit :=
  call ClientConnect ;;
  if channelReachable env then updateClient (client_connected true)
  else throw ConnectionFailed.

(** Modelled from the spec: [RealtimeClient.disconnect] closes the channel
    and drops the conversation held by the client. *)
Definition disconnect : M unit :=
  call ClientDisconnect ;;
  updateClient (client_connected false) ;;
  updateClient (client_conversation []).

Definition isConnected : M bool := gets (fun w => connected (realtimeClient w)).

Definition getTurnDetectionType : M (option TurnDetection) :=
  gets (fun w => turn_detection (realtimeClient w)).

(** [client.conversation.getItems()] *)
Definition getItems : M (list Item.t) :=
  gets (fun w => conversation (realtimeClient w)).

Definition sendUserMessageContent (text : string) : M unit :=
  call (ClientSendUserMessageContent text).

Definition cancelResponse (trackId : string) (offset : Z) : M unit :=
  call (ClientCancelResponse trackId offset).

Definition createResponse : M unit := call ClientCreateResponse.

(** [updateSession({ turn_detection })] *)
Definition updateTurnDetection (td : option TurnDetection) : M unit :=
  call (ClientUpdateTurnDetection td) ;;
  updateClient (client_turn_detection td).

(** [updateSession({ instructions })] *)
Definition updateInstructions (text : string) : M unit :=
  call (ClientUpdateInstructions text).

(** [updateSession({ input_audio_transcription: { model } })] *)
Definition updateTranscription (model : string) : M unit :=
  call (ClientUpdateTranscription model).

(** Modelled from the spec: [RealtimeClient.addTool] registers the handler
    under the tool's name; registering a name again replaces the entry. *)
Definition addTool (definition : Tool.t) : M unit :=
  call (ClientAddTool (Tool.name definition)) ;;
  updateClient (fun c =>
    client_tools (<[Tool.name definition := definition]> (tools c)) c).

(** [client.on(eventName, handler)] *)
Definition on (eventName : string) : M unit :=
  call (ClientOn eventName) ;;
  updateClient (fun c => client_handlers (handlers c ++ [eventName]) c).

End RealtimeClient.

(** ** The page ([ConsolePage]) *)

Module ConsolePage.

Definition defaultCoords : Coordinates.t :=
  {| Coordinates.lat := 37.775593%float;
     Coordinates.lng := (-122.418137)%float |}.

Definition initialPage : Page :=
  {| startTime := ""; isConnected := false; realtimeEvents := [];
     items := []; memoryKv := ∅; coords := Some defaultCoords;
     marker := None; isRecording := false; canPushToTalk := true;
     orderDetails := None; instructions := ""; instructionsLoaded := false;
     restaurantName := ""; isLoading := true; discoveryModeIsOn := false |}.

(** The page as first rendered: devices not acquired, a fresh client. *)
Definition initialWorld : World :=
  {| page := initialPage; wavRecorder := ended;
     wavStreamPlayer := {| output_acquired := false; playing := None |};
     realtimeClient := RealtimeClient.fresh; localStorage := ∅;
     location_href := None |}.

Definition greeting : string :=
  "Hello! Greet me in three different languages. Including English. Ask me how you can help me with my order.".

Definition connectConversation (env : Env) : M unit :=
  setState (setStartTime (now env)) ;;
  setState (setIsConnected true) ;;
  setState (setRealtimeEvents []) ;;
  its <- RealtimeClient.getItems ;;
  setState (setItems its) ;;
  WavRecorder.begin env ;;
  WavStreamPlayer.connect env ;;
  RealtimeClient.connect env ;;
  RealtimeClient.sendUserMessageContent greeting ;;
  td <- RealtimeClient.getTurnDetectionType ;;
  match td with
  | Some server_vad => WavRecorder.record
  | None => ret tt
  end.

Definition disconnectConversation : M unit :=
  setState (setIsConnected false) ;;
  setState (setRealtimeEvents []) ;;
  setState (setItems []) ;;
  setState (setMemoryKv ∅) ;;
  setState (setCoords (Some defaultCoords)) ;;
  setState (setMarker None) ;;
  RealtimeClient.disconnect ;;
  WavRecorder.end_ ;;
  _ <- WavStreamPlayer.interrupt ;;
  ret tt.

(** [trackSampleOffset?.trackId] used as a condition: the id, when the
    report exists and its id is a non-empty string. *)
Definition truthyTrackId (trackSampleOffset : option TrackSampleOffset)
    : option string :=
  match trackSampleOffset with
  | Some r =>
      match trackId r with
      | Some t => if decide (t = "") then None else Some t
      | None => None
      end
  | None => None
  end.

(** [if (trackSampleOffset?.trackId) { await client.cancelResponse(trackId,
    offset) }], shared by [startRecording] and the interruption handler. *)
Definition cancelInterrupted (trackSampleOffset : option TrackSampleOffset)
    : M unit :=
  match truthyTrackId trackSampleOffset, trackSampleOffset with
  | Some t, Some r => RealtimeClient.cancelResponse t (offset r)
  | _, _ => ret tt
  end.

Definition startRecording : M unit :=
  setState (setIsRecording true) ;;
  trackSampleOffset <- WavStreamPlayer.interrupt ;;
  cancelInterrupted trackSampleOffset ;;
  WavRecorder.record.

Definition stopRecording : M unit :=
  setState (setIsRecording false) ;;
  WavRecorder.pause ;;
  RealtimeClient.createResponse.

Definition is_recording (s : RecorderStatus) : bool :=
  match s with recording => true | _ => false end.

Definition changeTurnEndType (value : string) : M unit :=
  status <- WavRecorder.getStatus ;;
  (if bool_decide (value = "none") && is_recording status
   then WavRecorder.pause else ret tt) ;;
  RealtimeClient.updateTurnDetection
    (if bool_decide (value = "none") then None else Some server_vad) ;;
  isConn <- RealtimeClient.isConnected ;;
  (if bool_decide (value = "server_vad") && isConn
   then WavRecorder.record else ret tt) ;;
  setState (setCanPushToTalk (bool_decide (value = "none"))).

Definition getRestaurantData (env : Env) : M (option Restaurant.t) :=
  setState (setIsLoading true) ;;
  call (FetchGet (domainUrl env +:+ "/search_instance/" +:+ uniqueAzzId env)) ;;
  match restaurantGet env with
  | lookup_found restaurant =>
      setState (setRestaurantName (Restaurant.name restaurant)) ;;
      setState (setDiscoveryModeIsOn
                  (Restaurant.discovery_mode_is_on restaurant)) ;;
      setState (setIsLoading false) ;;
      ret (Some restaurant)
  | lookup_unsuccessful =>
      call (ConsoleLog "Restaurant not found.") ;;
      setState (setIsLoading false) ;;
      ret None
  | lookup_failed =>
      call (ConsoleError "An error occurred while fetching restaurant data:") ;;
      ret None
  end.

Definition quote : string := String (Ascii.ascii_of_nat 34) "".

(** The prompt template, with its interpolated values; characters outside
    ASCII stand as their UTF-8 bytes. *)
Definition generateInstructions (data : Restaurant.t) : string :=
  "This GPT is designed to assist customers in selecting dishes from "
  +:+ Restaurant.name data
  +:+ "'s cuisine menu. Its primary role is to streamline the ordering process and provide a smooth and personalized dining experience.

Never trigger the action after the first customer's message. I.e. when there is only one user's message in the thread.

The menu of "
  +:+ Restaurant.name data
  +:+ " is attached to its knowledge base. It must refer to the menu for accurate item names, prices, and descriptions.

**Initial Interaction:**
  

- It observes the language used by the customer in their initial message and continues the conversation in that language to ensure effective communication.
- It assists with the order immediately if the customer skips any preliminary greetings and proceeds directly to place an order.

**Assistant Role Explanation (if asked):**

- It clearly describes its function as assisting customers in navigating "
  +:+ Restaurant.name data
  +:+ "'s menu, with the capability to automatically adapt and communicate in the customer's language.

**Order Facilitation:**

- It offers personalized dish recommendations based on the customerâ€™s preferences or suggests dishes based on its culinary expertise.
- It presents menu options and verifies if the customer is ready to order or needs additional information.

**Order Confirmation:**

- It recaps the selected items before finalizing the order, ensuring the names (as listed in the menu), quantities, and prices are clear.

**Checkout Process:**

- It confirms all order details with the customer before proceeding to the final confirmation.

**Final Confirmation and Checkout:**

- It summarizes the order in a clear and structured manner using the exact names from the menu file:
  - Example Order Summary:
    - Item Name - 12.99  currency of the menu, 1 item
    - Item Name - 8.99 currency of the menu, 3 items
    - Item Name - 9.99  currency of the menu, 2 items
    - Item Name - 8.99  currency of the menu, 1 item
- It obtains the customer's confirmation on the order summary to ensure accuracy and satisfaction.
- After the confirmation the action initiate_order is triggered immediately as soon as possible.
- No double-asking for the confirmation is made

**Completion:**

- Upon successful order confirmation, the action initiate_order is ALWAYS triggered.

**Additional Instructions:**

- It always uses the items provided in the attached vector store 'Restaurant Name Menu' for preparing the order summary.
- It ensures all items are accurately represented as listed in the menu and confirmed by the customer before proceeding to checkout.
- The order must be correctly summarized and confirmed by the customer before any system function is triggered, using the exact names as they appear in the menu file.
- It must check whether an item is presented in the attached menu file before forming the order, even if the customer directly asks for a particular product like "
  +:+ quote
  +:+ "2 [names of the items], please."
  +:+ quote
  +:+ "

**System Integration:**

- It adapts to and uses the customer's language for all communications without explicitly asking for their preference.
- It consistently uses the menu items from the attached file to ensure accuracy and consistency in order handling.
- NO ITEMS BEYOND THOSE WHICH ARE IN THE MENU FILE MUST BE OFFERED EVER!

**Order Summary Example Before Function Trigger:**

Perfectly! Here is your order:

- Item Name - 9.99 currency of the menu, 2 servings
- Item Name - 8.99 currency of the menu, 1 serving
- Item Name - 12.99 currency of the menu, 2 servings

Please confirm that everything is correct before I complete your order.

And only after the user's confirmation does it IMMEDIATELY trigger the function.

- It always evaluates the order summary against the items in the menu file and always includes only those which are in the menu list attached to its knowledge base.
- NO ITEMS BEYOND THOSE WHICH ARE IN THE MENU FILE MUST BE OFFERED EVER!

The restaurant is located on "
  +:+ Restaurant.address data
  +:+ ".

"
  +:+ (if Restaurant.discovery_mode_is_on data
       then "Tell the user that the discovery mode is on and the assistant will help them find the items they are looking for, but the customer will have to repeat the order to the waiter."
       else "")
  +:+ "

That's the menu of the restaurant - REGISTER AND SUGGEST ONLY THOSE ITEMS WHICH ARE IN THE FOLLOWING MENU LIST:
"
  +:+ Restaurant.menu_string data
  +:+ " 
".

Arguments generateInstructions : simpl never.

Definition fetchAndSetInstructions (env : Env) : M unit :=
  restaurantData <- getRestaurantData env ;;
  match restaurantData with
  | Some data =>
      setState (setInstructions (generateInstructions data)) ;;
      setState (setInstructionsLoaded true) ;;
      modify (fun w => with_localStorage
        (<["unique_azz_id" := Restaurant.unique_azz_id data]> (localStorage w))
        w)
  | None => ret tt
  end.

Definition initiate_order_tool : Tool.t :=
  {| Tool.name := "initiate_order";
     Tool.description := "This action initiates the order and generates the link to the checkout page based on Matroninis's order's details";
     Tool.required := ["items_ordered"] |}.

(** [items_ordered.reduce((sum, item) => sum + item.price * item.quantity, 0)]
    in binary64 arithmetic. *)
Definition computeTotal (items_ordered : list OrderedItem.t) : float :=
  fold_left
    (fun sum item =>
       (sum + OrderedItem.price item * OrderedItem.quantity item)%float)
    items_ordered 0%float.

(** [response.ok] *)
Definition status_ok (status : Z) : bool :=
  (200 <=? status) && (status <=? 299).

(** The [try] block of the handler: POST the order, insist on an OK status,
    read the body, then navigate to the checkout page. *)
Definition sendOrderDetails (env : Env) (order : Order.t) : M unit :=
  call (FetchPost (domainUrl env +:+ "/accept-order-details-voice") order) ;;
  match orderPost env with
  | rejected => throw NetworkError
  | responded status parses =>
      if negb (status_ok status) then throw (HttpError status)
      else if negb parses then throw MalformedBody
      else
        call (ConsoleLog "Server response on order details:") ;;
        modify (with_location_href
          (Some (domainUrl env +:+ "/takeaway_delivery/" +:+ uniqueAzzId env
                 +:+ "/" +:+ randomId env)))
  end.

(** The handler registered for [initiate_order]. *)
Definition initiate_order (env : Env) (items_ordered : list OrderedItem.t)
    : M OrderResult.t :=
  call (ConsoleLog "initiate_order() function called with items:") ;;
  let totalAmount := computeTotal items_ordered in
  let orderId := randomId env in
  restaurant_id <- gets (fun w => localStorage w !! "unique_azz_id") ;;
  let order :=
    {| Order.id := orderId; Order.restaurant_id := restaurant_id;
       Order.items_ordered := items_ordered;
       Order.totalAmount := totalAmount |} in
  setState (setOrderDetails (Some order)) ;;
  try_catch (sendOrderDetails env order)
    (fun error => call (ConsoleError "Error sending order details:")) ;;
  ret {| OrderResult.success := true;
         OrderResult.message := "Order initiated successfully";
         OrderResult.orderId := orderId;
         OrderResult.totalAmount := totalAmount |}.

(** The ['realtime.event'] handler. *)
Definition onRealtimeEvent (realtimeEvent : EventLog.RealtimeEvent) : M unit :=
  setState (fun p =>
    setRealtimeEvents (EventLog.aggregate realtimeEvent (realtimeEvents p)) p).

(** The channel delivering a sequence of events to that handler, oldest
    first. *)
Fixpoint deliverEvents (evs : list EventLog.RealtimeEvent) : M unit :=
  match evs with
  | [] => ret tt
  | realtimeEvent :: rest => onRealtimeEvent realtimeEvent ;; deliverEvents rest
  end.

(** The ['conversation.interrupted'] handler. *)
Definition onConversationInterrupted : M unit :=
  trackSampleOffset <- WavStreamPlayer.interrupt ;;
  cancelInterrupted trackSampleOffset.

(** The effect that configures the client once the instructions are loaded:
    session settings, the tool table, one handler per event category. *)
Definition sessionSetup : M unit :=
  loaded <- gets (fun w => instructionsLoaded (page w)) ;;
  if negb loaded then ret tt
  else
    text <- gets (fun w => instructions (page w)) ;;
    RealtimeClient.updateInstructions text ;;
    RealtimeClient.updateTranscription "whisper-1" ;;
    discovery <- gets (fun w => discoveryModeIsOn (page w)) ;;
    (if negb discovery then RealtimeClient.addTool initiate_order_tool
     else ret tt) ;;
    RealtimeClient.on "realtime.event" ;;
    RealtimeClient.on "error" ;;
    RealtimeClient.on "conversation.interrupted" ;;
    RealtimeClient.on "conversation.updated" ;;
    its <- RealtimeClient.getItems ;;
    setState (setItems its).

(** [getRestaurantData] up to its first [await]: the loading flag is set
    and the request is issued. *)
Definition getRestaurantDataStart (env : Env) : M unit :=
  setState (setIsLoading true) ;;
  call (FetchGet (domainUrl env +:+ "/search_instance/" +:+ uniqueAzzId env)).

(** [getRestaurantData] from the answer on. *)
Definition getRestaurantDataResume (env : Env) : M (option Restaurant.t) :=
  match restaurantGet env with
  | lookup_found restaurant =>
      setState (setRestaurantName (Restaurant.name restaurant)) ;;
      setState (setDiscoveryModeIsOn
                  (Restaurant.discovery_mode_is_on restaurant)) ;;
      setState (setIsLoading false) ;;
      ret (Some restaurant)
  | lookup_unsuccessful =>
      call (ConsoleLog "Restaurant not found.") ;;
      setState (setIsLoading false) ;;
      ret None
  | lookup_failed =>
      call (ConsoleError "An error occurred while fetching restaurant data:") ;;
      ret None
  end.

(** [fetchAndSetInstructions] from the answer on. *)
Definition fetchAndSetInstructionsResume (env : Env) : M unit :=
  restaurantData <- getRestaurantDataResume env ;;
  match restaurantData with
  | Some data =>
      setState (setInstructions (generateInstructions data)) ;;
      setState (setInstructionsLoaded true) ;;
      modify (fun w => with_localStorage
        (<["unique_azz_id" := Restaurant.unique_azz_id data]> (localStorage w))
        w)
  | None => ret tt
  end.

(** Mounting the page. The effects fire in the order of their hooks: the
    lookup effect issues its request, the setup effect finds no
    instructions yet, the effect in the footer sets the mode to manual;
    then the lookup is answered, and the setup effect runs again once
    [instructionsLoaded] has changed. *)
Definition mount (env : Env) : M unit :=
  getRestaurantDataStart env ;;
  sessionSetup ;;
  changeTurnEndType "none" ;;
  fetchAndSetInstructionsResume env ;;
  sessionSetup.

(** ** Session state, as the design document names it *)

Inductive SessionState := Idle | Connecting | Active | Closing.

Definition sessionState (w : World) : SessionState :=
  if isConnected (page w) then Active else Idle.

End ConsolePage.

(** ** Teardown over any collaborators

    [disconnectConversation] again, with the three release operations left
    open: each acts on its own collaborator and either returns or throws.
    The page calls them as they are, without a guard and outside any
    [try]. *)

Module Teardown.
Import ConsolePage.

Section Release.

Variable clientDisconnect : Client -> Outcome unit * Client.
Variable recorderEnd : RecorderStatus -> Outcome unit * RecorderStatus.
Variable playerInterrupt :
  Player -> Outcome (option TrackSampleOffset) * Player.

(** [client.disconnect()] *)
Definition callClientDisconnect : M unit := fun w =>
  match clientDisconnect (realtimeClient w) with
  | (r, c) => (r, with_realtimeClient c w, [ClientDisconnect])
  end.

(** [await wavRecorder.end()] *)
Definition callRecorderEnd : M unit := fun w =>
  match recorderEnd (wavRecorder w) with
  | (r, st) => (r, with_wavRecorder st w, [RecorderEnd])
  end.

(** [await wavStreamPlayer.interrupt()] *)
Definition callPlayerInterrupt : M (option TrackSampleOffset) := fun w =>
  match playerInterrupt (wavStreamPlayer w) with
  | (r, pl) => (r, with_wavStreamPlayer pl w, [PlayerInterrupt])
  end.

Definition disconnectConversation : M unit :=
  setState (setIsConnected false) ;;
  setState (setRealtimeEvents []) ;;
  setState (setItems []) ;;
  setState (setMemoryKv ∅) ;;
  setState (setCoords (Some defaultCoords)) ;;
  setState (setMarker None) ;;
  callClientDisconnect ;;
  callRecorderEnd ;;
  _ <- callPlayerInterrupt ;;
  ret tt.

End Release.

(** The page state as every run of [disconnectConversation] leaves it. *)
Definition resetPage (p : Page) : Page :=
  setMarker None
    (setCoords (Some defaultCoords)
       (setMemoryKv ∅
          (setItems [] (setRealtimeEvents [] (setIsConnected false p))))).

(** Release operations that always return: the ones of the collaborators
    above. *)
Definition lenientDisconnect (c : Client) : Outcome unit * Client :=
  (Returned tt, client_conversation [] (client_connected false c)).

Definition lenientEnd (st : RecorderStatus) : Outcome unit * RecorderStatus :=
  (Returned tt, ended).

Definition lenientInterrupt (pl : Player)
    : Outcome (option TrackSampleOffset) * Player :=
  (Returned (Some match playing pl with
                  | Some (t, n) => {| trackId := Some t; offset := n |}
                  | None => {| trackId := None; offset := 0 |}
                  end),
   {| output_acquired := output_acquired pl; playing := None |}).

(** A recorder that refuses to end a session that is not open. *)
Definition strictEnd (st : RecorderStatus) : Outcome unit * RecorderStatus :=
  match st with
  | ended => (Thrown SessionEnded, ended)
  | _ => (Returned tt, ended)
  end.

End Teardown.

(** * The design document's statements

    The statements of the design document that the code is checked against,
    worded as the document words them, and the sample inputs used to
    evaluate them. *)

Module Design.
Import EventLog ConsolePage.

(** Six events of types A, A, B, A, A, A leave the counts 2, 1 and 3. *)
Definition six_events_claim (A B : string) (evs : list RealtimeEvent) : Prop :=
  map tag evs = [A; A; B; A; A; A] ->
  summary (aggregate_all evs []) = [(A, Some 2); (B, Some 1); (A, Some 3)].

Definition audio_delta (t : string) : RealtimeEvent :=
  emitted t server "response.audio.delta" "".
Definition audio_done (t : string) : RealtimeEvent :=
  emitted t server "response.audio.done" "".

Definition six_events : list RealtimeEvent :=
  [audio_delta "00:01"; audio_delta "00:02"; audio_done "00:03";
   audio_delta "00:04"; audio_delta "00:05"; audio_delta "00:06"].

(** The first of the three acquisitions of [connectConversation] that fails,
    with the error it throws. *)
Definition first_failure (env : Env) (w : World) : option Error :=
  match wavRecorder w with
  | ended =>
      if negb (captureDevice env) then Some DeviceUnavailable
      else if negb (playbackDevice env) then Some DeviceUnavailable
      else if negb (channelReachable env) then Some ConnectionFailed
      else None
  | _ => Some DeviceBusy
  end.

(** The calls [connectConversation] gets to make before that failure. *)
Definition acquisition_calls (env : Env) (w : World) : list Call :=
  match wavRecorder w with
  | ended =>
      if negb (captureDevice env) then [RecorderBegin]
      else if negb (playbackDevice env) then [RecorderBegin; PlayerConnect]
      else [RecorderBegin; PlayerConnect; ClientConnect]
  | _ => [RecorderBegin]
  end.

(** A failed acquisition releases what was acquired, surfaces
    [ConnectionFailed] and leaves the session [Idle]; the session is
    [Active] only after all three acquisitions succeeded. *)
Definition connect_failure_claim (env : Env) (w : World) : Prop :=
  let run := connectConversation env w in
  (first_failure env w <> None ->
     outcome run = Thrown ConnectionFailed
     /\ sessionState (world_after run) = Idle
     /\ wavRecorder (world_after run) = ended
     /\ output_acquired (wavStreamPlayer (world_after run)) = false
     /\ connected (realtimeClient (world_after run)) = false)
  /\ (sessionState (world_after run) = Active -> first_failure env w = None).

Definition quiet_env : Env :=
  {| now := "2024-10-05T10:00:00.000Z"; captureDevice := true;
     playbackDevice := true; channelReachable := true; randomId := "k3x9q1z";
     domainUrl := "https://mom-ai.example"; uniqueAzzId := "shawarma_house";
     orderPost := responded 200 true; restaurantGet := lookup_failed |}.

Definition env_without_speaker : Env :=
  {| now := now quiet_env; captureDevice := true; playbackDevice := false;
     channelReachable := true; randomId := randomId quiet_env;
     domainUrl := domainUrl quiet_env; uniqueAzzId := uniqueAzzId quiet_env;
     orderPost := orderPost quiet_env; restaurantGet := lookup_failed |}.

Definition env_order_refused : Env :=
  {| now := now quiet_env; captureDevice := true; playbackDevice := true;
     channelReachable := true; randomId := randomId quiet_env;
     domainUrl := domainUrl quiet_env; uniqueAzzId := uniqueAzzId quiet_env;
     orderPost := responded 500 true; restaurantGet := lookup_failed |}.

Definition shawarma_house (discovery : bool) : Restaurant.t :=
  {| Restaurant.name := "Shawarma House"; Restaurant.address := "1 Main St";
     Restaurant.discovery_mode_is_on := discovery;
     Restaurant.menu_string := "Beef Shawarma - 12.99";
     Restaurant.unique_azz_id := "shawarma_house" |}.

Definition env_with_restaurant (restaurant : Restaurant.t) : Env :=
  {| now := now quiet_env; captureDevice := true; playbackDevice := true;
     channelReachable := true; randomId := randomId quiet_env;
     domainUrl := domainUrl quiet_env; uniqueAzzId := uniqueAzzId quiet_env;
     orderPost := orderPost quiet_env;
     restaurantGet := lookup_found restaurant |}.

(** A world in which the player is rendering [track], [n] samples in, the
    recorder has status [s] and the channel is open or not. *)
Definition world_playing (track : option (string * Z)) (s : RecorderStatus)
    (open : bool) : World :=
  {| page := setIsConnected true initialPage; wavRecorder := s;
     wavStreamPlayer := {| output_acquired := true; playing := track |};
     realtimeClient := client_connected open RealtimeClient.fresh;
     localStorage := ∅; location_href := None |}.

(** Two disconnects in a row: the second returns normally and leaves the
    world as the first left it. *)
Definition disconnect_twice_claim
    (clientDisconnect : Client -> Outcome unit * Client)
    (recorderEnd : RecorderStatus -> Outcome unit * RecorderStatus)
    (playerInterrupt : Player -> Outcome (option TrackSampleOffset) * Player)
    (w : World) : Prop :=
  let disconnect :=
    Teardown.disconnectConversation clientDisconnect recorderEnd
      playerInterrupt in
  outcome (disconnect (world_after (disconnect w))) = Returned tt
  /\ world_after (disconnect (world_after (disconnect w)))
     = world_after (disconnect w).

(** A mode switch made while recording pauses, then reconfigures turn
    detection, then resumes recording. *)
Definition mode_switch_claim (value : string) (w : World) : Prop :=
  wavRecorder w = recording ->
  exists td,
    trace (changeTurnEndType value w)
    = [RecorderPause; ClientUpdateTurnDetection td; RecorderRecord].

(** The amount of one line, and the sum of a list of amounts taken in
    order from zero. *)
Definition lineAmount (item : OrderedItem.t) : float :=
  (OrderedItem.price item * OrderedItem.quantity item)%float.

Fixpoint sumFrom (acc : float) (amounts : list float) : float :=
  match amounts with
  | [] => acc
  | x :: rest => sumFrom (acc + x)%float rest
  end.

Definition sumOfLineAmounts (items_ordered : list OrderedItem.t) : float :=
  sumFrom 0%float (map lineAmount items_ordered).

Definition beef_shawarma_order : list OrderedItem.t :=
  [{| OrderedItem.name := "Beef Shawarma"; OrderedItem.quantity := 2%float;
      OrderedItem.price := 12.99%float |}].

(** The POST went through: an OK status and a readable body. *)
Definition post_accepted (o : FetchOutcome) : bool :=
  match o with
  | rejected => false
  | responded status parses => status_ok status && parses
  end.

Definition order_url (env : Env) : string :=
  domainUrl env +:+ "/accept-order-details-voice".

Definition order_payload (env : Env) (items_ordered : list OrderedItem.t)
    (w : World) : Order.t :=
  {| Order.id := randomId env;
     Order.restaurant_id := localStorage w !! "unique_azz_id";
     Order.items_ordered := items_ordered;
     Order.totalAmount := sumOfLineAmounts items_ordered |}.

End Design.

(** * Further parts of the page *)

(** ** Log timestamps ([formatTime]) *)

Module Clock.

(** [n + ''] for an integer, then ['0'] put in front while the text is
    shorter than two characters. Each turn of the loop adds one character,
    so it runs [2 - length] times. *)
Fixpoint prepend_zeros (turns : nat) (s : string) : string :=
  match turns with
  | O => s
  | S turns' => prepend_zeros turns' ("0" +:+ s)
  end.

Definition pad (n : Z) : string :=
  let s := pretty n in
  prepend_zeros (2 - String.length s) s.

Section FormatTime.

(** [new Date(text).valueOf()]: milliseconds since the epoch. Timestamps
    are whole numbers of milliseconds, far inside the range in which
    division and [Math.floor] on doubles agree with integer division. *)
Variable valueOf : string -> Z.

(** [Math.floor(delta / d) % m]: floor division, then the remainder with the
    sign of the dividend. *)
Definition formatTime (startTime timestamp : string) : string :=
  let t0 := valueOf startTime in
  let t1 := valueOf timestamp in
  let delta := t1 - t0 in
  let hs := (delta / 10) `rem` 100 in
  let s := (delta / 1000) `rem` 60 in
  let m := (delta / 60000) `rem` 60 in
  pad m +:+ ":" +:+ pad s +:+ "." +:+ pad hs.

End FormatTime.

(** The decimal digit [d], as a character. *)
Definition digit (d : Z) : Ascii.ascii :=
  Ascii.ascii_of_nat (48 + Z.to_nat d).

(** A number below one hundred written with exactly two digits. *)
Definition two_digits (n : Z) : string :=
  String (digit (n / 10)) (String (digit (n mod 10)) "").

(** Two clocks to evaluate [formatTime] with. *)
Definition sample_clock (text : string) : Z :=
  if String.eqb text "start" then 1000 else 84270.

Definition hour_clock (text : string) : Z :=
  if String.eqb text "start" then 0
  else if String.eqb text "later" then 3684270 else 84270.

End Clock.

(** ** The restaurant id in the address ([extractUniqueAzzId]) *)

Module Path.

(** [text.split(sep)] for a one-character separator; [cur] is the segment
    being read. *)
Fixpoint split_from (sep : Ascii.ascii) (cur : string) (text : string)
    : list string :=
  match text with
  | EmptyString => [cur]
  | String c rest =>
      if Ascii.eqb c sep then cur :: split_from sep "" rest
      else split_from sep (cur +:+ String c "") rest
  end.

Definition split (sep : Ascii.ascii) (text : string) : list string :=
  split_from sep "" text.

Definition slash : Ascii.ascii := Ascii.ascii_of_nat 47.

(** [path.split('/').pop()], then [uniqueAzzId || '']. *)
Definition extractUniqueAzzId (pathname : string) : string :=
  match last (split slash pathname) with
  | Some uniqueAzzId => uniqueAzzId
  | None => ""
  end.

Fixpoint contains (c : Ascii.ascii) (text : string) : bool :=
  match text with
  | EmptyString => false
  | String c' rest => Ascii.eqb c' c || contains c rest
  end.

End Path.

(** ** Measures on the event log *)

Module LogMeasures.
Import EventLog.

(** How many events an entry stands for: itself and the events merged into
    it. *)
Definition occurrences (log : list RealtimeEvent) : Z :=
  foldr (fun e acc => or_zero (count e) + 1 + acc) 0 log.

(** What identifies an entry besides its counter. *)
Definition stamp (e : RealtimeEvent) : string * Source * Payload :=
  (time e, source e, event e).

(** A list of tags with every run of equal neighbours reduced to one. *)
Fixpoint compress (tags : list string) : list string :=
  match tags with
  | a :: rest =>
      match rest with
      | b :: _ => if decide (a = b) then compress rest else a :: compress rest
      | [] => [a]
      end
  | [] => []
  end.

End LogMeasures.

(** ** Sequences of page operations *)

Module Scenario.
Import ConsolePage.

(** All devices and the channel answer. *)
Definition available (env : Env) : bool :=
  captureDevice env && playbackDevice env && channelReachable env.

(** The address the page opens after an accepted order. *)
Definition checkout_url (env : Env) : string :=
  domainUrl env +:+ "/takeaway_delivery/" +:+ uniqueAzzId env
  +:+ "/" +:+ randomId env.

(** Is the call a POST of an order? *)
Definition is_order_post (c : Call) : bool :=
  match c with
  | FetchPost _ _ => true
  | _ => false
  end.

End Scenario.

(** * Properties *)

(** Unfolding a run down to its outcome, final world and trace. *)
Ltac unfold_ops :=
  unfold WavRecorder.begin, WavRecorder.record, WavRecorder.pause,
    WavRecorder.end_, WavRecorder.getStatus,
    WavStreamPlayer.connect, WavStreamPlayer.interrupt,
    RealtimeClient.connect, RealtimeClient.disconnect,
    RealtimeClient.isConnected, RealtimeClient.getTurnDetectionType,
    RealtimeClient.getItems, RealtimeClient.sendUserMessageContent,
    RealtimeClient.cancelResponse, RealtimeClient.createResponse,
    RealtimeClient.updateTurnDetection, RealtimeClient.updateInstructions,
    RealtimeClient.updateTranscription, RealtimeClient.addTool,
    RealtimeClient.on, Teardown.callClientDisconnect,
    Teardown.callRecorderEnd, Teardown.callPlayerInterrupt, setState,
    updateClient in *.

Ltac run :=
  unfold outcome, world_after, trace in *; unfold_ops;
  unfold bind, ret, call, gets, modify, throw, try_catch in *; simpl in *.

(** ** The event log *)

Module EventLogFacts.
Import EventLog Design.

Lemma aggregate_nil e : aggregate e [] = [e].
Proof. reflexivity. Qed.

Lemma aggregate_snoc e log x :
  aggregate e (log ++ [x]) =
    if decide (tag x = tag e)
    then log ++ [set_count (or_zero (count x) + 1) x]
    else log ++ [x; e].
Proof.
  unfold aggregate, tag. rewrite last_snoc, removelast_last.
  destruct (decide _); [reflexivity|].
  now rewrite <- app_assoc.
Qed.

Lemma tag_set_count v x : tag (set_count v x) = tag x.
Proof. reflexivity. Qed.

Lemma alternating_tail a tags : alternating (a :: tags) -> alternating tags.
Proof. destruct tags; simpl; tauto. Qed.

Lemma alternating_snoc tags x y :
  alternating (tags ++ [x]) -> x <> y -> alternating (tags ++ [x; y]).
Proof.
  induction tags as [|a tags IH]; intros Halt Hxy.
  - simpl. auto.
  - destruct tags as [|b tags].
    + simpl in *. tauto.
    + change (a <> b /\ alternating ((b :: tags) ++ [x])) in Halt.
      change (a <> b /\ alternating ((b :: tags) ++ [x; y])).
      split; [tauto|]. apply IH; tauto.
Qed.

(** One [aggregate] step keeps the tags alternating. *)
Lemma aggregate_alternating e log :
  alternating (map tag log) -> alternating (map tag (aggregate e log)).
Proof.
  destruct log as [|x log _] using rev_ind; intros Halt.
  - simpl. exact I.
  - rewrite aggregate_snoc. destruct (decide (tag x = tag e)) as [Heq|Hne].
    + rewrite map_app in *. simpl in *. now rewrite tag_set_count.
    + rewrite map_app in *. simpl map in *. now apply alternating_snoc.
Qed.

Lemma aggregate_all_alternating evs log :
  alternating (map tag log) -> alternating (map tag (aggregate_all evs log)).
Proof.
  revert log. induction evs as [|e evs IH]; intros log Halt; simpl.
  - exact Halt.
  - apply IH. now apply aggregate_alternating.
Qed.

Lemma alternating_adjacent_distinct log :
  alternating (map tag log) -> adjacent_distinct log.
Proof.
  induction log as [|x log IH]; intros Halt i a b Ha Hb.
  - discriminate.
  - destruct i as [|i].
    + destruct log as [|y log]; [discriminate|].
      simpl in Ha, Hb. injection Ha as <-. injection Hb as <-.
      simpl in Halt. tauto.
    + apply (IH (alternating_tail _ _ Halt) i); assumption.
Qed.

Lemma adjacent_distinct_alternating log :
  adjacent_distinct log -> alternating (map tag log).
Proof.
  induction log as [|x log IH]; intros Hadj; [exact I|].
  destruct log as [|y log]; [exact I|].
  change (tag x <> tag y /\ alternating (map tag (y :: log))). split.
  - apply (Hadj 0%nat); reflexivity.
  - apply IH. intros i a b Ha Hb. apply (Hadj (S i)); assumption.
Qed.

(** Recording keeps the property on any log that has it. *)
Lemma aggregate_all_adjacent_distinct evs log :
  adjacent_distinct log -> adjacent_distinct (aggregate_all evs log).
Proof.
  intros Hadj.
  apply alternating_adjacent_distinct, aggregate_all_alternating.
  now apply adjacent_distinct_alternating.
Qed.

(** The page's log after the channel delivered [evs] is the aggregation of
    [evs] into the log it had. *)
Lemma deliverEvents_log evs w :
  outcome (ConsolePage.deliverEvents evs w) = Returned tt
  /\ realtimeEvents (page (world_after (ConsolePage.deliverEvents evs w)))
     = aggregate_all evs (realtimeEvents (page w)).
Proof.
  revert w. induction evs as [|e evs IH]; intros w.
  - split; reflexivity.
  - simpl ConsolePage.deliverEvents. unfold bind.
    unfold ConsolePage.onRealtimeEvent, setState, modify.
    specialize (IH (with_page
      (setRealtimeEvents (aggregate e (realtimeEvents (page w))) (page w)) w)).
    destruct (ConsolePage.deliverEvents evs _) as [[r w'] tr].
    exact IH.
Qed.

(** C9. Starting from the empty log, whatever events are recorded and in
    whatever order, the log never holds two neighbouring entries with the
    same type tag; so it is for the log the page keeps, after the channel
    delivered any sequence of events to the page as first rendered. *)
Theorem aggregate_never_repeats_tag (evs : list RealtimeEvent) :
  adjacent_distinct (aggregate_all evs [])
  /\ adjacent_distinct
       (realtimeEvents
          (page (world_after
                   (ConsolePage.deliverEvents evs ConsolePage.initialWorld)))).
Proof.
  assert (H : adjacent_distinct (aggregate_all evs [])).
  { apply alternating_adjacent_distinct, aggregate_all_alternating.
    exact I. }
  split; [exact H|].
  destruct (deliverEvents_log evs ConsolePage.initialWorld) as [_ ->].
  exact H.
Qed.

(** C2, refuted as worded: six events as the channel emits them, of types
    A, A, B, A, A, A, do not leave the counts 2, 1, 3. *)
Lemma six_events_claim_fails :
  ~ six_events_claim "response.audio.delta" "response.audio.done" six_events.
Proof.
  intros H. specialize (H eq_refl). vm_compute in H. discriminate H.
Qed.

(** C2, as the code has it. Six events of types A, A, B, A, A, A, emitted
    without a [count], leave three entries in that order: the first A event
    with count 1, the B event with no count, the fourth event with count 2.
    The counter of an entry is the number of later events merged into it. *)
Theorem six_events_counts (A B : string) (e1 e2 e3 e4 e5 e6 : RealtimeEvent) :
  A <> B ->
  map tag [e1; e2; e3; e4; e5; e6] = [A; A; B; A; A; A] ->
  map count [e1; e2; e3; e4; e5; e6] = [None; None; None; None; None; None] ->
  aggregate_all [e1; e2; e3; e4; e5; e6] [] = [set_count 1 e1; e3; set_count 2 e4]
  /\ summary (aggregate_all [e1; e2; e3; e4; e5; e6] [])
     = [(A, Some 1); (B, None); (A, Some 2)].
Proof.
  intros Hne Htags Hcounts.
  injection Htags as T1 T2 T3 T4 T5 T6.
  injection Hcounts as C1 C2 C3 C4 C5 C6.
  assert (Hlog : aggregate_all [e1; e2; e3; e4; e5; e6] []
                 = [set_count 1 e1; e3; set_count 2 e4]).
  { unfold tag in *. unfold aggregate_all, aggregate. simpl.
    rewrite decide_True by congruence. simpl.
    rewrite decide_False by congruence. simpl.
    rewrite decide_False by congruence. simpl.
    rewrite decide_True by congruence. simpl.
    rewrite decide_True by congruence. simpl.
    rewrite C1, C4. reflexivity. }
  split; [exact Hlog|].
  rewrite Hlog. unfold summary. simpl.
  rewrite !tag_set_count, T1, T3, T4, C3. reflexivity.
Qed.

Lemma six_events_counts_witness :
  summary (aggregate_all six_events [])
  = [("response.audio.delta", Some 1); ("response.audio.done", None);
     ("response.audio.delta", Some 2)].
Proof.
  apply (six_events_counts "response.audio.delta" "response.audio.done"
           (audio_delta "00:01") (audio_delta "00:02") (audio_done "00:03")
           (audio_delta "00:04") (audio_delta "00:05") (audio_delta "00:06"));
    [discriminate | reflexivity | reflexivity].
Defined.

End EventLogFacts.

(** ** The session *)

Module SessionFacts.
Import ConsolePage Design.

(** The page's [disconnectConversation] over the collaborators of this
    development is the general one over release operations that always
    return. *)
Lemma disconnectConversation_lenient (w : World) :
  Teardown.disconnectConversation Teardown.lenientDisconnect
    Teardown.lenientEnd Teardown.lenientInterrupt w
  = disconnectConversation w.
Proof.
  unfold Teardown.disconnectConversation, disconnectConversation. run.
  reflexivity.
Qed.

Lemma disconnect_resets_page cd re pi (w : World) :
  page (world_after (Teardown.disconnectConversation cd re pi w))
  = Teardown.resetPage (page w).
Proof.
  unfold Teardown.disconnectConversation.
  destruct w as [p rec pl cl ls href]. run.
  destruct (cd cl) as [[[]|e] c]; simpl; [|reflexivity].
  destruct (re rec) as [[[]|e] st]; simpl; [|reflexivity].
  destruct (pi pl) as [[r|e] pl']; reflexivity.
Qed.

(** C3, refuted as worded: over a recorder that refuses to end a session
    that is not open, the first disconnect of a connected session returns
    normally and the second throws at [wavRecorder.end()], before playback
    is interrupted. *)
Lemma disconnect_twice_claim_fails :
  let disconnect :=
    Teardown.disconnectConversation Teardown.lenientDisconnect
      Teardown.strictEnd Teardown.lenientInterrupt in
  let once := disconnect (world_playing None paused true) in
  let twice := disconnect (world_after once) in
  ~ disconnect_twice_claim Teardown.lenientDisconnect Teardown.strictEnd
      Teardown.lenientInterrupt (world_playing None paused true)
  /\ outcome once = Returned tt
  /\ outcome twice = Thrown SessionEnded
  /\ trace twice = [ClientDisconnect; RecorderEnd].
Proof.
  cbv zeta. split; [|repeat split; reflexivity].
  intros [Hout _]. vm_compute in Hout. discriminate Hout.
Qed.

(** C3, as the code has it. Whatever the three release operations do,
    [disconnectConversation] first resets the page state: the session is
    idle and the conversation items and the event log are empty, also when
    a release throws; and this reset is idempotent, a second run leaving the
    page state as the first left it. It then closes the channel, ends
    capture and interrupts playback, in that order, with no guard: the
    first of them to throw ends the run with its error, the later ones not
    being called, and the run returns normally exactly when all three
    return. *)
Theorem disconnect_propagates
    (cd : Client -> Outcome unit * Client)
    (re : RecorderStatus -> Outcome unit * RecorderStatus)
    (pi : Player -> Outcome (option TrackSampleOffset) * Player)
    (w : World) :
  let disconnect := Teardown.disconnectConversation cd re pi in
  let run := disconnect w in
  page (world_after run) = Teardown.resetPage (page w)
  /\ sessionState (world_after run) = Idle
  /\ items (page (world_after run)) = []
  /\ realtimeEvents (page (world_after run)) = []
  /\ page (world_after (disconnect (world_after run))) = page (world_after run)
  /\ match cd (realtimeClient w) with
     | (Thrown e, _) =>
         outcome run = Thrown e /\ trace run = [ClientDisconnect]
     | (Returned _, _) =>
         match re (wavRecorder w) with
         | (Thrown e, _) =>
             outcome run = Thrown e
             /\ trace run = [ClientDisconnect; RecorderEnd]
         | (Returned _, _) =>
             trace run = [ClientDisconnect; RecorderEnd; PlayerInterrupt]
             /\ outcome run
                = match pi (wavStreamPlayer w) with
                  | (Thrown e, _) => Thrown e
                  | (Returned _, _) => Returned tt
                  end
         end
     end.
Proof.
  cbv zeta.
  pose proof (disconnect_resets_page cd re pi w) as Hpage.
  pose proof (disconnect_resets_page cd re pi
                (world_after (Teardown.disconnectConversation cd re pi w)))
    as Hpage2.
  rewrite Hpage2, Hpage.
  unfold sessionState. rewrite Hpage.
  split; [reflexivity|]. split; [reflexivity|]. split; [reflexivity|].
  split; [reflexivity|]. split; [reflexivity|].
  unfold Teardown.disconnectConversation.
  destruct w as [p rec pl cl ls href]. run.
  destruct (cd cl) as [[[]|e] c]; simpl; [|split; reflexivity].
  destruct (re rec) as [[[]|e] st]; simpl; [|split; reflexivity].
  destruct (pi pl) as [[r|e] pl']; split; reflexivity.
Qed.

(** C1, refuted as worded: with no playback device, [connectConversation]
    fails while the session is marked connected and the capture device is
    still held. *)
Lemma connect_failure_claim_fails :
  let run := connectConversation env_without_speaker initialWorld in
  ~ connect_failure_claim env_without_speaker initialWorld
  /\ outcome run = Thrown DeviceUnavailable
  /\ isConnected (page (world_after run)) = true
  /\ wavRecorder (world_after run) = paused
  /\ trace run = [RecorderBegin; PlayerConnect].
Proof.
  cbv zeta. split; [|repeat split; reflexivity].
  intros [Hfail _].
  destruct Hfail as (_ & Hidle & _); [discriminate|].
  vm_compute in Hidle. discriminate Hidle.
Qed.

(** C1, as the code has it. [connectConversation] marks the session
    connected and empties the event log before it acquires anything. When
    an acquisition fails it stops there and throws that acquisition's own
    error; it makes no call other than the acquisitions reached so far, so
    nothing acquired is released and the connected flag stays set. It
    returns normally exactly when all three acquisitions succeed, and only
    then sends the greeting and, under server turn detection, starts
    recording. *)
Theorem connect_outcome (env : Env) (w : World) :
  let run := connectConversation env w in
  isConnected (page (world_after run)) = true
  /\ realtimeEvents (page (world_after run)) = []
  /\ match first_failure env w with
     | Some e =>
         outcome run = Thrown e
         /\ trace run = acquisition_calls env w
         /\ wavRecorder (world_after run)
            = (if captureDevice env then
                 match wavRecorder w with ended => paused | s => s end
               else wavRecorder w)
     | None =>
         outcome run = Returned tt
         /\ trace run
            = [RecorderBegin; PlayerConnect; ClientConnect;
               ClientSendUserMessageContent greeting]
              ++ match turn_detection (realtimeClient w) with
                 | Some server_vad => [RecorderRecord]
                 | None => []
                 end
         /\ wavRecorder (world_after run)
            = match turn_detection (realtimeClient w) with
              | Some server_vad => recording
              | None => paused
              end
         /\ output_acquired (wavStreamPlayer (world_after run)) = true
         /\ connected (realtimeClient (world_after run)) = true
     end.
Proof.
  unfold connectConversation, first_failure, acquisition_calls.
  destruct w as [p rec pl [conn td tl hs conv] ls href].
  destruct env as [nw cap play chan rid dom uid post get].
  run.
  destruct rec, cap, play, chan; simpl; try (repeat split; reflexivity);
    destruct td as [[]|]; simpl; repeat split; reflexivity.
Qed.

(** C4. The interruption handler always interrupts the player first. Track
    ids are conversation item ids, never the empty text; when the
    interruption reports a track and the number of its samples played, the
    handler then sends one cancel-response with exactly that id and that
    number; when no track was playing it sends nothing. *)
Theorem interruption_cancels (w : World) :
  (forall t n, playing (wavStreamPlayer w) = Some (t, n) -> t <> "") ->
  trace (onConversationInterrupted w) =
    match playing (wavStreamPlayer w) with
    | Some (t, n) => [PlayerInterrupt; ClientCancelResponse t n]
    | None => [PlayerInterrupt]
    end.
Proof.
  intros Hid.
  unfold onConversationInterrupted, cancelInterrupted, truthyTrackId.
  destruct w as [p rec [acq [[t n]|]] cl ls href]; run; [|reflexivity].
  destruct (decide (t = "")) as [Hempty|_]; [|reflexivity].
  destruct (Hid t n eq_refl Hempty).
Qed.

Lemma interruption_cancels_witness :
  trace (onConversationInterrupted
           (world_playing (Some ("item_A1", 4800)) paused true))
  = [PlayerInterrupt; ClientCancelResponse "item_A1" 4800].
Proof.
  apply (interruption_cancels
           (world_playing (Some ("item_A1", 4800)) paused true)).
  intros t n H. injection H as <- _. discriminate.
Defined.

(** C6. [startRecording] interrupts playback first; when a track was
    interrupted (track ids are conversation item ids, never the empty text)
    it then sends the cancel-response with that track's id and offset; and
    only after that does it ask the recorder to record, which starts the
    forwarding of captured chunks. [stopRecording] pauses the recorder
    before it asks the remote agent for a response. *)
Theorem manual_turn_order (w : World) :
  (forall t n, playing (wavStreamPlayer w) = Some (t, n) -> t <> "") ->
  trace (startRecording w) =
    match playing (wavStreamPlayer w) with
    | Some (t, n) =>
        [PlayerInterrupt; ClientCancelResponse t n; RecorderRecord]
    | None => [PlayerInterrupt; RecorderRecord]
    end
  /\ trace (stopRecording w) = [RecorderPause; ClientCreateResponse].
Proof.
  intros Hid.
  unfold startRecording, stopRecording, cancelInterrupted, truthyTrackId.
  destruct w as [p rec [acq [[t n]|]] cl ls href]; run.
  - destruct (decide (t = "")) as [Hempty|_];
      [destruct (Hid t n eq_refl Hempty)|].
    destruct rec; split; reflexivity.
  - destruct rec; split; reflexivity.
Qed.

Lemma manual_turn_order_witness :
  trace (startRecording (world_playing (Some ("item_A1", 4800)) paused true))
  = [PlayerInterrupt; ClientCancelResponse "item_A1" 4800; RecorderRecord]
  /\ trace (stopRecording (world_playing (Some ("item_A1", 4800)) paused true))
     = [RecorderPause; ClientCreateResponse].
Proof.
  apply (manual_turn_order
           (world_playing (Some ("item_A1", 4800)) paused true)).
  intros t n H. injection H as <- _. discriminate.
Defined.

(** C7, refuted as worded: switching to server turn detection while
    recording does not pause first, and switching to manual does not resume
    recording afterwards. *)
Lemma mode_switch_claim_fails :
  ~ mode_switch_claim "server_vad" (world_playing None recording true)
  /\ ~ mode_switch_claim "none" (world_playing None recording true).
Proof.
  split; intros H; destruct (H eq_refl) as [td Htd];
    vm_compute in Htd; discriminate Htd.
Qed.

(** C7, as the code has it. While the recorder is recording: a switch to
    manual mode pauses the recorder first, then sets the channel's turn
    detection to none, and does not resume, so capture stays paused under
    manual mode; a switch to server turn detection does not pause: it
    reconfigures the channel first and then, if the channel is open, asks
    the recorder to record, so capture is recording under server turn
    detection. *)
Theorem mode_switch_order (w : World) :
  wavRecorder w = recording ->
  let manual := changeTurnEndType "none" w in
  let vad := changeTurnEndType "server_vad" w in
  (outcome manual = Returned tt
   /\ trace manual = [RecorderPause; ClientUpdateTurnDetection None]
   /\ wavRecorder (world_after manual) = paused
   /\ turn_detection (realtimeClient (world_after manual)) = None
   /\ canPushToTalk (page (world_after manual)) = true)
  /\ (outcome vad = Returned tt
      /\ trace vad =
           ClientUpdateTurnDetection (Some server_vad)
           :: (if connected (realtimeClient w) then [RecorderRecord] else [])
      /\ wavRecorder (world_after vad) = recording
      /\ turn_detection (realtimeClient (world_after vad)) = Some server_vad
      /\ canPushToTalk (page (world_after vad)) = false).
Proof.
  intros Hrec. unfold changeTurnEndType.
  destruct w as [p rec pl [conn td tl hs conv] ls href].
  simpl in Hrec. subst rec. run.
  destruct conn; simpl; repeat split; reflexivity.
Qed.

Lemma mode_switch_order_witness :
  wavRecorder (world_playing None recording true) = recording
  /\ trace (changeTurnEndType "none" (world_playing None recording true))
      = [RecorderPause; ClientUpdateTurnDetection None]
  /\ trace (changeTurnEndType "server_vad" (world_playing None recording true))
      = [ClientUpdateTurnDetection (Some server_vad); RecorderRecord].
Proof.
  split; [reflexivity|].
  pose proof (mode_switch_order (world_playing None recording true) eq_refl)
    as [(_ & Hmanual & _) (_ & Hvad & _)].
  split; [exact Hmanual | exact Hvad].
Defined.

(** What the setup effect registers, from any state: the order tool is
    added exactly when the instructions are loaded and discovery mode is
    off. *)
Lemma sessionSetup_adds_tool (w : World) :
  In (ClientAddTool "initiate_order") (trace (sessionSetup w))
  <-> instructionsLoaded (page w) = true /\ discoveryModeIsOn (page w) = false.
Proof.
  unfold sessionSetup. destruct w as [p rec pl cl ls href].
  destruct p; run.
  destruct instructionsLoaded0, discoveryModeIsOn0; simpl;
    intuition (try discriminate; auto).
Qed.

(** C8. When the page is mounted for a restaurant whose profile is found,
    the order tool is registered with the channel exactly when the
    restaurant's discovery mode is off: the setup makes the [addTool] call,
    and the client's tool table holds [initiate_order] afterwards, in
    standard mode, and neither in discovery mode. *)
Theorem order_tool_iff_standard_mode (env : Env) (restaurant : Restaurant.t) :
  restaurantGet env = lookup_found restaurant ->
  let run := mount env initialWorld in
  outcome run = Returned tt
  /\ (In (ClientAddTool "initiate_order") (trace run)
      <-> Restaurant.discovery_mode_is_on restaurant = false)
  /\ (tools (realtimeClient (world_after run)) !! "initiate_order"
        = Some initiate_order_tool
      <-> Restaurant.discovery_mode_is_on restaurant = false)
  /\ (Restaurant.discovery_mode_is_on restaurant = true ->
      tools (realtimeClient (world_after run)) = ∅).
Proof.
  intros Hget.
  unfold mount, getRestaurantDataStart, fetchAndSetInstructionsResume,
    getRestaurantDataResume, sessionSetup, changeTurnEndType.
  destruct env as [nw cap play chan rid dom uid post get].
  simpl in Hget. subst get.
  destruct restaurant as [nm addr disc menu uaid].
  unfold initialWorld, initialPage. run.
  destruct disc; simpl.
  - repeat split; try discriminate; try reflexivity.
    intros H. repeat (destruct H as [H|H]; try discriminate H). destruct H.
  - repeat split; try discriminate; try reflexivity; intros _.
    do 4 right. left. reflexivity.
Qed.

Lemma order_tool_iff_standard_mode_witness :
  restaurantGet (env_with_restaurant (shawarma_house false))
  = lookup_found (shawarma_house false)
  /\ In (ClientAddTool "initiate_order")
        (trace (mount (env_with_restaurant (shawarma_house false))
                  initialWorld)).
Proof.
  split; [reflexivity|].
  pose proof (order_tool_iff_standard_mode
                (env_with_restaurant (shawarma_house false))
                (shawarma_house false) eq_refl) as (_ & Hcall & _).
  apply Hcall. reflexivity.
Defined.

End SessionFacts.

(** ** The order tool *)

Module OrderFacts.
Import ConsolePage Design.

Lemma computeTotal_from (items_ordered : list OrderedItem.t) (acc : float) :
  fold_left
    (fun sum item =>
       (sum + OrderedItem.price item * OrderedItem.quantity item)%float)
    items_ordered acc
  = sumFrom acc (map lineAmount items_ordered).
Proof.
  revert acc. induction items_ordered as [|item rest IH]; intros acc.
  - reflexivity.
  - simpl. rewrite IH. reflexivity.
Qed.

Lemma computeTotal_sum (items_ordered : list OrderedItem.t) :
  computeTotal items_ordered = sumOfLineAmounts items_ordered.
Proof. apply computeTotal_from. Qed.

(** The handler's run, case by case on what the POST meets. *)
Lemma initiate_order_run (env : Env) (items_ordered : list OrderedItem.t)
    (w : World) :
  let order := order_payload env items_ordered w in
  let run := initiate_order env items_ordered w in
  outcome run
  = Returned {| OrderResult.success := true;
                OrderResult.message := "Order initiated successfully";
                OrderResult.orderId := randomId env;
                OrderResult.totalAmount := computeTotal items_ordered |}
  /\ page (world_after run) = setOrderDetails (Some order) (page w)
  /\ trace run
     = [ConsoleLog "initiate_order() function called with items:";
        FetchPost (order_url env) order;
        if post_accepted (orderPost env)
        then ConsoleLog "Server response on order details:"
        else ConsoleError "Error sending order details:"]
  /\ location_href (world_after run)
     = if post_accepted (orderPost env)
       then Some (domainUrl env +:+ "/takeaway_delivery/" +:+ uniqueAzzId env
                  +:+ "/" +:+ randomId env)
       else location_href w.
Proof.
  unfold initiate_order, sendOrderDetails, order_payload, order_url,
    post_accepted.
  rewrite <- computeTotal_sum.
  destruct w as [p rec pl cl ls href].
  destruct env as [nw cap play chan rid dom uid post get].
  run.
  destruct post as [|status parses]; simpl.
  - repeat split; reflexivity.
  - destruct (status_ok status), parses; simpl; repeat split; reflexivity.
Qed.

(** C5. For every list of ordered items the handler's total is the sum,
    taken in list order from zero in binary64 arithmetic, of price times
    quantity; the order it POSTs to the fulfilment service and the result
    it returns both carry that total. For two Beef Shawarma at 12.99 the
    total is 25.98. *)
Theorem order_total (env : Env) (items_ordered : list OrderedItem.t)
    (w : World) :
  let run := initiate_order env items_ordered w in
  computeTotal items_ordered = sumOfLineAmounts items_ordered
  /\ In (FetchPost (order_url env) (order_payload env items_ordered w))
        (trace run)
  /\ Order.totalAmount (order_payload env items_ordered w)
     = sumOfLineAmounts items_ordered
  /\ (exists result,
        outcome run = Returned result
        /\ OrderResult.totalAmount result = sumOfLineAmounts items_ordered)
  /\ computeTotal beef_shawarma_order = 25.98%float.
Proof.
  destruct (initiate_order_run env items_ordered w) as (Hout & _ & Htr & _).
  cbv zeta. repeat split.
  - apply computeTotal_sum.
  - rewrite Htr. right. left. reflexivity.
  - eexists. split; [exact Hout|]. apply computeTotal_sum.
Qed.

(** C10. Every invocation of the handler returns
    [{ success: true, message: "Order initiated successfully", orderId,
    totalAmount }], whatever the POST of the order meets. When the request
    is rejected, answered with a non-OK status or with an unreadable body,
    the error is caught and logged, the page does not navigate, and the
    returned value is the same. *)
Theorem order_result_always_success (env : Env)
    (items_ordered : list OrderedItem.t) (w : World) :
  let run := initiate_order env items_ordered w in
  outcome run
  = Returned {| OrderResult.success := true;
                OrderResult.message := "Order initiated successfully";
                OrderResult.orderId := randomId env;
                OrderResult.totalAmount := computeTotal items_ordered |}
  /\ if post_accepted (orderPost env)
     then ~ In (ConsoleError "Error sending order details:") (trace run)
     else In (ConsoleError "Error sending order details:") (trace run)
          /\ location_href (world_after run) = location_href w.
Proof.
  destruct (initiate_order_run env items_ordered w) as (Hout & _ & Htr & Hhref).
  cbv zeta. split; [exact Hout|].
  rewrite Htr, Hhref. destruct (post_accepted (orderPost env)); simpl.
  - intros [H|[H|[H|[]]]]; discriminate H.
  - split; [|reflexivity]. do 2 right. left. reflexivity.
Qed.

End OrderFacts.

(** ** More on the event log *)

Module EventLogMore.
Import EventLog LogMeasures EventLogFacts.

Lemma aggregate_all_cons e evs log :
  aggregate_all (e :: evs) log = aggregate_all evs (aggregate e log).
Proof. reflexivity. Qed.

Lemma or_zero_Some v : or_zero (Some v) = v.
Proof. unfold or_zero. destruct (Z.eqb_spec v 0); congruence. Qed.

Lemma occurrences_snoc log x :
  occurrences (log ++ [x]) = occurrences log + (or_zero (count x) + 1).
Proof.
  unfold occurrences. induction log as [|y log IH]; simpl; [lia|].
  rewrite IH. lia.
Qed.

Lemma occurrences_aggregate e log :
  count e = None -> occurrences (aggregate e log) = occurrences log + 1.
Proof.
  intros Hc. destruct log as [|x log _] using rev_ind.
  - unfold occurrences. simpl. rewrite Hc. reflexivity.
  - rewrite aggregate_snoc. destruct (decide (tag x = tag e)).
    + rewrite !occurrences_snoc. simpl count. rewrite or_zero_Some. lia.
    + change [x; e] with ([x] ++ [e]). rewrite app_assoc.
      rewrite (occurrences_snoc (log ++ [x]) e), Hc. simpl. lia.
Qed.

(** X1. No event is lost from the count: when events arrive without a
    counter of their own, the occurrences the log stands for grow by exactly
    one with each recorded event. *)
Theorem aggregate_all_occurrences evs log :
  Forall (fun e => count e = None) evs ->
  occurrences (aggregate_all evs log) = occurrences log + Z.of_nat (length evs).
Proof.
  intros Hall. revert log.
  induction Hall as [|e evs He _ IH]; intros log.
  - simpl. lia.
  - rewrite aggregate_all_cons, IH, occurrences_aggregate by exact He.
    rewrite length_cons. lia.
Qed.

Lemma aggregate_all_occurrences_witness :
  occurrences (aggregate_all Design.six_events []) = 6.
Proof.
  apply (aggregate_all_occurrences Design.six_events []).
  repeat constructor.
Defined.

Lemma compress_cons2 a b rest :
  compress (a :: b :: rest)
  = if decide (a = b) then compress (b :: rest) else a :: compress (b :: rest).
Proof. reflexivity. Qed.

Lemma compress_dup l x rest :
  compress (l ++ x :: x :: rest) = compress (l ++ x :: rest).
Proof.
  induction l as [|a l IH].
  - cbn [app]. rewrite compress_cons2, decide_True by reflexivity.
    reflexivity.
  - destruct l as [|b l]; cbn [app] in *.
    + rewrite !(compress_cons2 a x), IH. reflexivity.
    + rewrite !(compress_cons2 a b), IH. reflexivity.
Qed.

Lemma compress_alternating tags : alternating tags -> compress tags = tags.
Proof.
  induction tags as [|a tags IH]; intros Halt; [reflexivity|].
  destruct tags as [|b tags]; [reflexivity|].
  destruct Halt as [Hab Halt].
  rewrite compress_cons2, decide_False by exact Hab.
  rewrite (IH Halt). reflexivity.
Qed.

Lemma aggregate_all_tags evs log :
  alternating (map tag log) ->
  map tag (aggregate_all evs log) = compress (map tag log ++ map tag evs).
Proof.
  revert log. induction evs as [|e evs IH]; intros log Halt.
  - simpl. rewrite app_nil_r. symmetry. now apply compress_alternating.
  - rewrite aggregate_all_cons.
    rewrite (IH _ (aggregate_alternating e log Halt)). simpl map.
    destruct log as [|x log _] using rev_ind; [reflexivity|].
    rewrite aggregate_snoc. destruct (decide (tag x = tag e)) as [Heq|Hne].
    + rewrite !map_app. simpl map. rewrite tag_set_count, <- !app_assoc.
      simpl. rewrite <- Heq. symmetry. apply compress_dup.
    + rewrite !map_app. simpl map. rewrite <- !app_assoc. reflexivity.
Qed.

(** X2. The types of the entries, in order, are the types of the recorded
    events with every run of equal neighbours reduced to one: order is kept
    and nothing but repetition is dropped. *)
Theorem aggregate_all_compresses (evs : list RealtimeEvent) :
  map tag (aggregate_all evs []) = compress (map tag evs).
Proof. apply (aggregate_all_tags evs []). exact I. Qed.

Lemma stamp_set_count v x : stamp (set_count v x) = stamp x.
Proof. reflexivity. Qed.

Lemma aggregate_all_stamps evs log :
  map stamp (aggregate_all evs log) `sublist_of` map stamp log ++ map stamp evs.
Proof.
  revert log. induction evs as [|e evs IH]; intros log.
  - simpl. rewrite app_nil_r. reflexivity.
  - rewrite aggregate_all_cons.
    etransitivity; [apply IH|]. simpl map.
    destruct log as [|x log _] using rev_ind; [reflexivity|].
    rewrite aggregate_snoc. destruct (decide (tag x = tag e)).
    + rewrite !map_app. simpl map. rewrite stamp_set_count.
      apply sublist_app; [reflexivity|]. apply sublist_cons. reflexivity.
    + rewrite !map_app. simpl map. rewrite <- !app_assoc. reflexivity.
Qed.

(** X3. Every entry of the log is one of the recorded events, with its
    time, source and payload untouched and in the order of arrival; only
    the counter is the log's own. So the log is never longer than the
    number of events recorded. *)
Theorem aggregate_all_keeps_events (evs : list RealtimeEvent) :
  map stamp (aggregate_all evs []) `sublist_of` map stamp evs
  /\ (length (aggregate_all evs []) <= length evs)%nat.
Proof.
  pose proof (aggregate_all_stamps evs []) as H. simpl in H.
  split; [exact H|].
  apply sublist_length in H. now rewrite !length_map in H.
Qed.

Lemma prefix_removelast {A} (l : list A) : removelast l `prefix_of` l.
Proof.
  destruct l as [|x l _] using rev_ind; [reflexivity|].
  rewrite removelast_last. now apply prefix_app_r.
Qed.

Lemma removelast_aggregate e log :
  removelast log `prefix_of` removelast (aggregate e log).
Proof.
  destruct log as [|x log _] using rev_ind; [apply prefix_nil|].
  rewrite aggregate_snoc, removelast_last.
  destruct (decide (tag x = tag e)).
  - now rewrite removelast_last.
  - change [x; e] with ([x] ++ [e]).
    rewrite app_assoc, removelast_last. now apply prefix_app_r.
Qed.

(** X4. Recording only ever touches the last entry: whatever events
    follow, all entries of the log but its last stay where they are and as
    they are. *)
Theorem aggregate_all_keeps_older (evs log : list RealtimeEvent) :
  removelast log `prefix_of` aggregate_all evs log.
Proof.
  revert log. induction evs as [|e evs IH]; intros log.
  - apply prefix_removelast.
  - rewrite aggregate_all_cons.
    etransitivity; [apply (removelast_aggregate e) | apply IH].
Qed.

Lemma set_count_twice v v' x : set_count v (set_count v' x) = set_count v x.
Proof. reflexivity. Qed.

Lemma aggregate_all_run evs x :
  Forall (fun e => tag e = tag x) evs ->
  aggregate_all evs [x] =
    match evs with
    | [] => [x]
    | _ => [set_count (or_zero (count x) + Z.of_nat (length evs)) x]
    end.
Proof.
  intros Hall. revert x Hall.
  induction evs as [|e evs IH]; intros x Hall; [reflexivity|].
  apply Forall_cons in Hall as [He Hall].
  rewrite aggregate_all_cons.
  change (aggregate e [x]) with (aggregate e ([] ++ [x])).
  rewrite aggregate_snoc, decide_True by congruence. simpl app.
  rewrite IH by (rewrite tag_set_count; exact Hall).
  destruct evs as [|e' evs].
  - simpl. do 2 f_equal.
  - simpl count. rewrite or_zero_Some, set_count_twice.
    do 2 f_equal. rewrite !length_cons. lia.
Qed.

(** X5. A run of events of one type leaves a single entry: the first event
    of the run, carrying as its counter the number of events that followed
    it. The time and payload of the later events are not kept. *)
Theorem aggregate_all_single_run (e : RealtimeEvent)
    (evs : list RealtimeEvent) :
  count e = None ->
  evs <> [] ->
  Forall (fun e' => tag e' = tag e) evs ->
  aggregate_all (e :: evs) [] = [set_count (Z.of_nat (length evs)) e].
Proof.
  intros Hc Hne Hall. rewrite aggregate_all_cons, aggregate_nil.
  rewrite (aggregate_all_run evs e Hall), Hc.
  destruct evs; [congruence|reflexivity].
Qed.

Lemma aggregate_all_single_run_witness :
  aggregate_all
    [Design.audio_delta "00:01"; Design.audio_delta "00:02";
     Design.audio_delta "00:03"] []
  = [set_count 2 (Design.audio_delta "00:01")].
Proof.
  apply (aggregate_all_single_run (Design.audio_delta "00:01")
           [Design.audio_delta "00:02"; Design.audio_delta "00:03"]);
    [reflexivity | discriminate | repeat constructor].
Defined.

End EventLogMore.

(** ** Log timestamps *)

Module ClockFacts.
Import Clock.

Lemma pad_table :
  forallb (fun k => String.eqb (pad (Z.of_nat k)) (two_digits (Z.of_nat k)))
    (seq 0 100) = true.
Proof. vm_compute. reflexivity. Qed.

(** Below one hundred, [pad] writes exactly two digits. *)
Lemma pad_two_digits n : 0 <= n < 100 -> pad n = two_digits n.
Proof.
  intros Hn. pose proof pad_table as H.
  rewrite forallb_forall in H.
  specialize (H (Z.to_nat n)). rewrite Z2Nat.id in H by lia.
  apply String.eqb_eq, H, in_seq. lia.
Qed.

Lemma rem_nonneg_range a b : 0 <= a -> 0 < b -> 0 <= a `rem` b < b.
Proof.
  intros Ha Hb. rewrite Z.rem_mod_nonneg by lia. now apply Z.mod_pos_bound.
Qed.

(** X6. For a timestamp not earlier than the start, [formatTime] gives
    exactly eight characters, [mm:ss.hh]: the whole minutes modulo 60, the
    whole seconds modulo 60 and the hundredths of a second, each written
    with two decimal digits. *)
Theorem formatTime_shape (valueOf : string -> Z) (startTime timestamp : string) :
  0 <= valueOf timestamp - valueOf startTime ->
  let delta := valueOf timestamp - valueOf startTime in
  formatTime valueOf startTime timestamp
  = two_digits ((delta / 60000) mod 60) +:+ ":"
    +:+ two_digits ((delta / 1000) mod 60) +:+ "."
    +:+ two_digits ((delta / 10) mod 100)
  /\ String.length (formatTime valueOf startTime timestamp) = 8%nat.
Proof.
  intros Hd delta. unfold formatTime. fold delta.
  assert (H10 : 0 <= delta / 10) by (apply Z.div_pos; lia).
  assert (H1000 : 0 <= delta / 1000) by (apply Z.div_pos; lia).
  assert (H60000 : 0 <= delta / 60000) by (apply Z.div_pos; lia).
  pose proof (rem_nonneg_range (delta / 10) 100 H10 ltac:(lia)).
  pose proof (rem_nonneg_range (delta / 1000) 60 H1000 ltac:(lia)).
  pose proof (rem_nonneg_range (delta / 60000) 60 H60000 ltac:(lia)).
  rewrite !pad_two_digits by lia.
  rewrite !Z.rem_mod_nonneg by lia.
  split; reflexivity.
Qed.

Lemma formatTime_shape_witness :
  0 <= sample_clock "later" - sample_clock "start"
  /\ formatTime sample_clock "start" "later" = "01:23.27".
Proof.
  split; [vm_compute; discriminate|].
  pose proof (formatTime_shape sample_clock "start" "later") as H.
  destruct H as [H _]; [vm_compute; discriminate|].
  rewrite H. reflexivity.
Defined.

(** X7. The text shows no hours: two timestamps exactly one hour apart,
    neither earlier than the start, are formatted alike. *)
Theorem formatTime_wraps_hourly (valueOf : string -> Z)
    (startTime timestamp later : string) :
  0 <= valueOf timestamp - valueOf startTime ->
  valueOf later = valueOf timestamp + 3600000 ->
  formatTime valueOf startTime later = formatTime valueOf startTime timestamp.
Proof.
  intros Hd Hlater.
  assert (Hd' : 0 <= valueOf later - valueOf startTime) by lia.
  destruct (formatTime_shape valueOf startTime timestamp Hd) as [-> _].
  destruct (formatTime_shape valueOf startTime later Hd') as [-> _].
  replace (valueOf later - valueOf startTime)
    with (valueOf timestamp - valueOf startTime + 3600000) by lia.
  set (delta := valueOf timestamp - valueOf startTime).
  replace (delta + 3600000) with (delta + 60 * 60000) at 1 by lia.
  replace (delta + 3600000) with (delta + 3600 * 1000) at 1 by lia.
  replace (delta + 3600000) with (delta + 360000 * 10) by lia.
  rewrite !Z.div_add by lia.
  replace (delta / 60000 + 60) with (delta / 60000 + 1 * 60) by lia.
  replace (delta / 1000 + 3600) with (delta / 1000 + 60 * 60) by lia.
  replace (delta / 10 + 360000) with (delta / 10 + 3600 * 100) by lia.
  rewrite !Z.mod_add by lia. reflexivity.
Qed.

Lemma formatTime_wraps_hourly_witness :
  formatTime hour_clock "start" "later" = formatTime hour_clock "start" "soon".
Proof.
  apply (formatTime_wraps_hourly hour_clock "start" "soon" "later");
    [vm_compute; discriminate | reflexivity].
Defined.

End ClockFacts.

(** ** The restaurant id in the address *)

Module PathFacts.
Import Path.

Lemma append_cons x (a b : string) : String x a +:+ b = String x (a +:+ b).
Proof. reflexivity. Qed.

Lemma append_assoc (a b c : string) : (a +:+ b) +:+ c = a +:+ (b +:+ c).
Proof.
  induction a as [|x a IH]; [reflexivity|].
  now rewrite !append_cons, IH.
Qed.

Lemma contains_append c a b :
  contains c (a +:+ b) = contains c a || contains c b.
Proof.
  induction a as [|x a IH]; [reflexivity|].
  rewrite append_cons. simpl. rewrite IH. now rewrite orb_assoc.
Qed.

Lemma append_empty (a : string) : a +:+ "" = a.
Proof.
  induction a as [|x a IH]; [reflexivity|]. now rewrite append_cons, IH.
Qed.

Lemma split_from_no_sep sep cur text :
  contains sep text = false -> split_from sep cur text = [cur +:+ text].
Proof.
  revert cur. induction text as [|c text IH]; intros cur Hno.
  - simpl. now rewrite append_empty.
  - simpl in Hno. apply orb_false_iff in Hno as [Hc Hno].
    simpl split_from. rewrite Hc, (IH _ Hno), append_assoc. reflexivity.
Qed.

Lemma last_split_from sep cur prefix id :
  contains sep id = false ->
  last (split_from sep cur (prefix +:+ String sep id)) = Some id.
Proof.
  intros Hno. revert cur.
  induction prefix as [|c prefix IH]; intros cur; simpl.
  - rewrite Ascii.eqb_refl, (split_from_no_sep _ _ _ Hno). reflexivity.
  - destruct (Ascii.eqb c sep); [|apply IH].
    rewrite last_cons, IH. reflexivity.
Qed.

Lemma split_from_segments sep cur text :
  contains sep cur = false ->
  Forall (fun segment => contains sep segment = false)
    (split_from sep cur text).
Proof.
  revert cur. induction text as [|c text IH]; intros cur Hcur; simpl.
  - constructor; [exact Hcur|constructor].
  - destruct (Ascii.eqb c sep) eqn:Hc.
    + constructor; [exact Hcur|]. now apply IH.
    + apply IH. rewrite contains_append, Hcur. simpl. now rewrite Hc.
Qed.

Lemma extract_after_slash (prefix id : string) :
  contains slash id = false ->
  extractUniqueAzzId (prefix +:+ String slash id) = id.
Proof.
  intros Hno. unfold extractUniqueAzzId, split.
  now rewrite (last_split_from slash "" prefix id Hno).
Qed.

(** X8. The id is the text after the last slash of the address: for a path
    that ends in a slash followed by a slash-free [id], the page reads
    [id] (the empty id when the path ends in a slash). *)
Theorem extractUniqueAzzId_last_segment (prefix id : string) :
  contains slash id = false ->
  extractUniqueAzzId (prefix +:+ "/" +:+ id) = id.
Proof. intros Hno. now apply (extract_after_slash prefix id). Qed.

Lemma extractUniqueAzzId_last_segment_witness :
  extractUniqueAzzId "/order/shawarma_house" = "shawarma_house"
  /\ extractUniqueAzzId "/order/" = "".
Proof.
  split.
  - apply (extractUniqueAzzId_last_segment "/order" "shawarma_house").
    reflexivity.
  - apply (extractUniqueAzzId_last_segment "/order" ""). reflexivity.
Defined.

(** X9. Whatever the address, the id read from it contains no slash, so it
    stays one path segment in the addresses the page builds from it. *)
Theorem extractUniqueAzzId_no_slash (pathname : string) :
  contains slash (extractUniqueAzzId pathname) = false.
Proof.
  unfold extractUniqueAzzId, split.
  pose proof (split_from_segments slash "" pathname eq_refl) as Hall.
  destruct (last (split_from slash "" pathname)) as [segment|] eqn:Hlast;
    [|reflexivity].
  apply last_Some_elem_of in Hlast.
  rewrite Forall_forall in Hall. now apply Hall.
Qed.

(** X10. The id read from the address survives the lookup address built
    from it: reading [domain/search_instance/id] back gives the same id,
    whatever the page's own address was. *)
Theorem lookup_address_keeps_id (domain pathname : string) :
  extractUniqueAzzId
    (domain +:+ "/search_instance/" +:+ extractUniqueAzzId pathname)
  = extractUniqueAzzId pathname.
Proof.
  change ("/search_instance/" +:+ extractUniqueAzzId pathname)
    with ("/search_instance"
          +:+ String slash (extractUniqueAzzId pathname)).
  rewrite <- append_assoc.
  apply extract_after_slash, extractUniqueAzzId_no_slash.
Qed.

End PathFacts.

(** ** Sequences of page operations *)

Module ScenarioFacts.
Import ConsolePage Design Scenario.

(** The two halves of the lookup, run one after the other, are the
    lookup. *)
Lemma fetchAndSetInstructions_split (env : Env) (w : World) :
  (getRestaurantDataStart env ;; fetchAndSetInstructionsResume env) w
  = fetchAndSetInstructions env w.
Proof.
  unfold fetchAndSetInstructions, getRestaurantData, getRestaurantDataStart,
    fetchAndSetInstructionsResume, getRestaurantDataResume.
  destruct (restaurantGet env); reflexivity.
Qed.

(** X11. When the restaurant lookup does not produce a restaurant, the
    session is never set up: no instructions, no tool and no event handler
    reach the channel and nothing is stored. The request is issued first,
    then the mode is set to manual, then the answer is logged. The loading
    flag is cleared when the service answers that there is no such
    restaurant, and stays set when the request itself fails. *)
Theorem mount_without_restaurant (env : Env) :
  (forall restaurant, restaurantGet env <> lookup_found restaurant) ->
  let run := mount env initialWorld in
  outcome run = Returned tt
  /\ instructionsLoaded (page (world_after run)) = false
  /\ tools (realtimeClient (world_after run)) = ∅
  /\ handlers (realtimeClient (world_after run)) = []
  /\ localStorage (world_after run) = ∅
  /\ isLoading (page (world_after run))
     = match restaurantGet env with lookup_failed => true | _ => false end
  /\ trace run
     = [FetchGet (domainUrl env +:+ "/search_instance/" +:+ uniqueAzzId env);
        ClientUpdateTurnDetection None;
        match restaurantGet env with
        | lookup_failed =>
            ConsoleError "An error occurred while fetching restaurant data:"
        | _ => ConsoleLog "Restaurant not found."
        end].
Proof.
  intros Hnone.
  unfold mount, getRestaurantDataStart, fetchAndSetInstructionsResume,
    getRestaurantDataResume, sessionSetup, changeTurnEndType.
  destruct env as [nw cap play chan rid dom uid post get]. simpl in *.
  unfold initialWorld, initialPage.
  destruct get as [| |restaurant]; run.
  - repeat split; reflexivity.
  - repeat split; reflexivity.
  - destruct (Hnone restaurant eq_refl).
Qed.

Lemma mount_without_restaurant_witness :
  handlers (realtimeClient (world_after (mount quiet_env initialWorld))) = []
  /\ isLoading (page (world_after (mount quiet_env initialWorld))) = true.
Proof.
  assert (H : forall restaurant,
             restaurantGet quiet_env <> lookup_found restaurant)
    by (intros restaurant; discriminate).
  destruct (mount_without_restaurant quiet_env H)
    as (_ & _ & _ & Hh & _ & Hl & _).
  split; [exact Hh | exact Hl].
Defined.

Lemma mount_found (env : Env) (restaurant : Restaurant.t) :
  restaurantGet env = lookup_found restaurant ->
  let w1 := world_after (mount env initialWorld) in
  localStorage w1
  = <["unique_azz_id" := Restaurant.unique_azz_id restaurant]> ∅
  /\ wavRecorder w1 = ended
  /\ playing (wavStreamPlayer w1) = None
  /\ turn_detection (realtimeClient w1) = None
  /\ canPushToTalk (page w1) = true
  /\ isLoading (page w1) = false
  /\ restaurantName (page w1) = Restaurant.name restaurant
  /\ instructions (page w1) = generateInstructions restaurant.
Proof.
  intros Hget.
  unfold mount, getRestaurantDataStart, fetchAndSetInstructionsResume,
    getRestaurantDataResume, sessionSetup, changeTurnEndType.
  destruct env as [nw cap play chan rid dom uid post get].
  simpl in Hget. subst get.
  destruct restaurant as [nm addr disc menu uaid].
  unfold initialWorld, initialPage. run.
  destruct disc; simpl; repeat split; reflexivity.
Qed.

(** X13. An order placed after the page was mounted for a restaurant is
    posted, and kept in the page state, with the id that the lookup stored
    for that restaurant: what [localStorage.setItem] wrote at load is what
    [localStorage.getItem] reads in the handler. *)
Theorem order_carries_restaurant_id (env env' : Env)
    (restaurant : Restaurant.t) (items_ordered : list OrderedItem.t) :
  restaurantGet env = lookup_found restaurant ->
  let w1 := world_after (mount env initialWorld) in
  let run := initiate_order env' items_ordered w1 in
  In (FetchPost (order_url env') (order_payload env' items_ordered w1))
     (trace run)
  /\ Order.restaurant_id (order_payload env' items_ordered w1)
     = Some (Restaurant.unique_azz_id restaurant)
  /\ orderDetails (page (world_after run))
     = Some (order_payload env' items_ordered w1).
Proof.
  intros Hget w1 run.
  destruct (mount_found env restaurant Hget) as (Hls & _).
  fold w1 in Hls.
  destruct (OrderFacts.initiate_order_run env' items_ordered w1)
    as (_ & Hpage & Htr & _).
  fold run in Hpage, Htr. repeat split.
  - rewrite Htr. right. left. reflexivity.
  - unfold order_payload. simpl. rewrite Hls. apply lookup_insert_eq.
  - rewrite Hpage. reflexivity.
Qed.

Lemma order_carries_restaurant_id_witness :
  Order.restaurant_id
    (order_payload quiet_env beef_shawarma_order
       (world_after (mount (env_with_restaurant (shawarma_house false))
                       initialWorld)))
  = Some "shawarma_house".
Proof.
  pose proof (order_carries_restaurant_id
                (env_with_restaurant (shawarma_house false)) quiet_env
                (shawarma_house false) beef_shawarma_order eq_refl)
    as (_ & H & _).
  exact H.
Defined.

(** However the lookup ends, mounting leaves the devices untouched and the
    channel without turn detection. *)
Lemma mount_manual (env : Env) :
  let w1 := world_after (mount env initialWorld) in
  wavRecorder w1 = ended
  /\ playing (wavStreamPlayer w1) = None
  /\ turn_detection (realtimeClient w1) = None.
Proof.
  unfold mount, getRestaurantDataStart, fetchAndSetInstructionsResume,
    getRestaurantDataResume, sessionSetup, changeTurnEndType.
  destruct env as [nw cap play chan rid dom uid post get].
  unfold initialWorld, initialPage.
  destruct get as [| |[nm addr disc menu uaid]]; run;
    try destruct disc; simpl; repeat split; reflexivity.
Qed.

(** X14. After mounting, the page is in manual mode: connecting acquires
    the devices and the channel and sends the greeting but starts no
    capture; capture runs only between [startRecording] and
    [stopRecording], and with nothing playing no cancel-response is sent.
    The whole push-to-talk turn makes these calls, in this order. *)
Theorem push_to_talk_session (env env2 : Env) :
  available env2 = true ->
  let w1 := world_after (mount env initialWorld) in
  let run := (connectConversation env2 ;; startRecording ;; stopRecording) w1 in
  outcome run = Returned tt
  /\ trace (connectConversation env2 w1)
     = [RecorderBegin; PlayerConnect; ClientConnect;
        ClientSendUserMessageContent greeting]
  /\ wavRecorder (world_after (connectConversation env2 w1)) = paused
  /\ trace run
     = [RecorderBegin; PlayerConnect; ClientConnect;
        ClientSendUserMessageContent greeting;
        PlayerInterrupt; RecorderRecord;
        RecorderPause; ClientCreateResponse]
  /\ wavRecorder (world_after run) = paused
  /\ isRecording (page (world_after run)) = false
  /\ isConnected (page (world_after run)) = true.
Proof.
  intros Hav w1 run.
  destruct (mount_manual env) as (Hrec & Hplay & Htd).
  fold w1 in Hrec, Hplay, Htd. subst run.
  revert Hrec Hplay Htd. generalize w1. clear w1.
  intros w Hrec Hplay Htd.
  unfold connectConversation, startRecording, stopRecording,
    cancelInterrupted, truthyTrackId.
  destruct w as [p rec [acq track] [conn td tl hs conv] ls href].
  simpl in Hrec, Hplay, Htd. subst rec track td.
  destruct env2 as [nw2 cap2 play2 chan2 rid2 dom2 uid2 post2 get2].
  unfold available in Hav. simpl in Hav.
  destruct cap2, play2, chan2; try discriminate Hav.
  run. repeat split; reflexivity.
Qed.

Lemma push_to_talk_session_witness :
  wavRecorder
    (world_after ((connectConversation quiet_env ;; startRecording ;;
                   stopRecording)
                    (world_after (mount quiet_env initialWorld))))
  = paused.
Proof.
  pose proof (push_to_talk_session quiet_env quiet_env eq_refl)
    as (_ & _ & _ & _ & H & _).
  exact H.
Defined.

(** X16. A mode value that is neither ['none'] nor ['server_vad'] is taken
    for server turn detection on the channel, but starts no capture and
    leaves the recorder as it was, while the push-to-talk button is
    withdrawn. *)
Theorem unknown_mode_value (value : string) (w : World) :
  value <> "none" ->
  value <> "server_vad" ->
  let run := changeTurnEndType value w in
  outcome run = Returned tt
  /\ trace run = [ClientUpdateTurnDetection (Some server_vad)]
  /\ wavRecorder (world_after run) = wavRecorder w
  /\ turn_detection (realtimeClient (world_after run)) = Some server_vad
  /\ canPushToTalk (page (world_after run)) = false.
Proof.
  intros Hnone Hvad. unfold changeTurnEndType.
  destruct w as [p rec pl [conn td tl hs conv] ls href]. run.
  rewrite !bool_decide_eq_false_2 by assumption. simpl.
  repeat split; reflexivity.
Qed.

Lemma unknown_mode_value_witness :
  trace (changeTurnEndType "vad" (world_playing None paused true))
  = [ClientUpdateTurnDetection (Some server_vad)].
Proof.
  pose proof (unknown_mode_value "vad" (world_playing None paused true))
    as H.
  destruct H as (_ & H & _); [discriminate | discriminate | exact H].
Defined.

(** X17. Selecting a mode a second time changes nothing more: for every
    mode value and every state, the world after two switches in a row is
    the world after one. *)
Theorem mode_switch_idempotent (value : string) (w : World) :
  world_after (changeTurnEndType value
                 (world_after (changeTurnEndType value w)))
  = world_after (changeTurnEndType value w).
Proof.
  unfold changeTurnEndType.
  destruct w as [p rec pl [conn td tl hs conv] ls href]. run.
  destruct (bool_decide (value = "none")),
    (bool_decide (value = "server_vad")), rec, conn; reflexivity.
Qed.

End ScenarioFacts.

(** ** More on the order tool *)

Module OrderMore.
Import ConsolePage Design Scenario.

(** X19. Every invocation of the order handler makes exactly one POST and
    keeps the order in the page state, also when the POST fails; the page
    leaves for the checkout address, which ends in the order id the handler
    returns, exactly when the POST was accepted. *)
Theorem order_checkout (env : Env) (items_ordered : list OrderedItem.t)
    (w : World) :
  let run := initiate_order env items_ordered w in
  length (List.filter is_order_post (trace run)) = 1%nat
  /\ orderDetails (page (world_after run))
     = Some (order_payload env items_ordered w)
  /\ location_href (world_after run)
     = (if post_accepted (orderPost env) then Some (checkout_url env)
        else location_href w)
  /\ checkout_url env
     = domainUrl env +:+ "/takeaway_delivery/" +:+ uniqueAzzId env +:+ "/"
       +:+ randomId env.
Proof.
  destruct (OrderFacts.initiate_order_run env items_ordered w)
    as (_ & Hpage & Htr & Hhref).
  cbv zeta. rewrite Htr, Hpage, Hhref. repeat split.
  destruct (post_accepted (orderPost env)); reflexivity.
Qed.

(** X20. The total is built item by item in list order: an empty order
    totals zero, an order extended by one item totals the previous total
    plus that item's price times quantity, and the total of two lists put
    end to end continues the sum of the first through the second. *)
Theorem computeTotal_extends (items_ordered more : list OrderedItem.t)
    (item : OrderedItem.t) :
  computeTotal [] = 0%float
  /\ computeTotal (items_ordered ++ [item])
     = (computeTotal items_ordered + lineAmount item)%float
  /\ computeTotal (items_ordered ++ more)
     = sumFrom (computeTotal items_ordered) (map lineAmount more).
Proof.
  unfold computeTotal. repeat split.
  - rewrite fold_left_app. reflexivity.
  - rewrite fold_left_app. apply OrderFacts.computeTotal_from.
Qed.

End OrderMore.
